(** * ai-mvp-backend: workflow / field / prompt API

    A shallow embedding of [models.py], [services.py] and [main.py].

    The handlers talk to two external collaborators, the hosted data store
    and the text-generation API.  Both are reached through an interface
    ([External]) whose operations thread an abstract world [W] and may
    raise; the handlers are written once against that interface, in a
    state-and-exception monad, and every general theorem holds for all
    implementations of it.  Module [Mem] gives one executable
    implementation (tables as lists, scripted outages) on which concrete
    runs are evaluated. *)

From Stdlib Require Import String Ascii List ZArith NArith QArith Bool Lia.
From Stdlib Require Import DecimalString.
From ExtLib Require Import Structures.Monad Structures.MonadExc.
Import ListNotations.
Import MonadNotation.
Local Close Scope Q_scope.
Local Open Scope string_scope.
Local Open Scope monad_scope.

(** ** Python strings

    A [str] is modelled as a sequence of code points below 256. *)

Module Py.

(** The character "\n". *)
Definition nl : string := String "010"%char EmptyString.

(** [ch.isspace()] on code points below 256: TAB..CR, FS..US, SPACE,
    NEL and NBSP. *)
Definition isspace (c : ascii) : bool :=
  let n := nat_of_ascii c in
  (((9 <=? n) && (n <=? 13)) || ((28 <=? n) && (n <=? 32))
   || (n =? 133) || (n =? 160))%nat.

Fixpoint lstrip (s : string) : string :=
  match s with
  | EmptyString => EmptyString
  | String c s' => if isspace c then lstrip s' else s
  end.

(** Drops the trailing white space: a character is kept when it is not
    white space or when something is kept after it. *)
Fixpoint rstrip (s : string) : string :=
  match s with
  | EmptyString => EmptyString
  | String c s' =>
      match rstrip s' with
      | EmptyString => if isspace c then EmptyString else String c EmptyString
      | r => String c r
      end
  end.

(** [s.strip()] *)
Definition strip (s : string) : string := rstrip (lstrip s).

(** [ch.lower()] on code points below 256: A..Z and the accented capitals
    U+00C0..U+00DE (the multiplication sign U+00D7 apart) move up by 32. *)
Definition lower_char (c : ascii) : ascii :=
  let n := nat_of_ascii c in
  if (((65 <=? n) && (n <=? 90))
      || ((192 <=? n) && (n <=? 222) && negb (n =? 215)))%nat
  then ascii_of_nat (n + 32) else c.

(** [s.lower()] *)
Fixpoint lower (s : string) : string :=
  match s with
  | EmptyString => EmptyString
  | String c s' => String (lower_char c) (lower s')
  end.

(** [needle in hay] *)
Fixpoint contains (needle hay : string) : bool :=
  if String.prefix needle hay then true
  else match hay with
       | EmptyString => false
       | String _ hay' => contains needle hay'
       end.

(** [x in xs] for a list of strings. *)
Definition str_in (x : string) (xs : list string) : bool :=
  existsb (String.eqb x) xs.

(** [sep.join(xs)] *)
Definition join (sep : string) (xs : list string) : string :=
  String.concat sep xs.

(** [str(n)] for an integer. *)
Definition str_int (z : Z) : string := NilZero.string_of_int (Z.to_int z).

End Py.

(** ** Exceptions and the handler monad *)

(** The exceptions the code raises or catches by class.  [OtherException]
    stands for every other subclass of [Exception] (a store client error,
    a network error, [IndexError], [AttributeError], ...). *)
Inductive exn : Type :=
| HTTPException (status_code : Z) (detail : string)
| ValueError (msg : string)
| OpenAIAPIError (msg : string)
| OtherException (msg : string).

(** [str(e)]; an [HTTPException] prints as its status code, a colon and
    its detail. *)
Definition str_exn (e : exn) : string :=
  match e with
  | HTTPException s d => Py.str_int s ++ ": " ++ d
  | ValueError m | OpenAIAPIError m | OtherException m => m
  end.

Inductive reply (A : Type) : Type :=
| Returned (a : A)
| Raised (e : exn).
Arguments Returned {A} a.
Arguments Raised {A} e.

(** A computation runs in a world [W] (the store, the generation API, the
    process environment) and returns or raises; the world it leaves is kept
    in both cases, since a write made before an exception stays made. *)
Definition M (W A : Type) : Type := W -> reply A * W.

#[export] Instance Monad_M {W : Type} : Monad (M W) :=
  {| ret := fun _ a w => (Returned a, w);
     bind := fun _ _ m k w =>
       match m w with
       | (Returned a, w') => k a w'
       | (Raised e, w') => (Raised e, w')
       end |}.

#[export] Instance Exc_M {W : Type} : MonadExc exn (M W) :=
  {| raise := fun _ e w => (Raised e, w);
     catch := fun _ m h w =>
       match m w with
       | (Returned a, w') => (Returned a, w')
       | (Raised e, w') => h e w'
       end |}.

(** [for x in xs: s = body(s, x)] *)
Fixpoint for_each {W A S : Type} (body : S -> A -> M W S) (xs : list A) (s : S)
  : M W S :=
  match xs with
  | [] => ret s
  | x :: xs' => s' <- body s x ;; for_each body xs' s'
  end.

(** Reading a component of the world. *)
Definition read {W A : Type} (f : W -> A) : M W A := fun w => (Returned (f w), w).

(** ** Identifiers, time stamps and table rows *)

(** A UUID is its 128-bit integer value. *)
Definition UUID : Type := N.
Definition datetime : Type := Z.

Record WorkflowRow : Type := mkWorkflowRow
  { w_id : UUID; w_name : string; w_created_at : datetime }.

Record FieldRow : Type := mkFieldRow
  { f_id : UUID; f_workflow_id : UUID; f_name : string; f_data_type : string;
    f_created_at : datetime }.

Record PromptRow : Type := mkPromptRow
  { p_id : UUID; p_field_id : UUID; p_prompt_template : string;
    p_created_at : datetime }.

(** ** models.py *)

Module models.

(** What a validator does with a value: hand it on, possibly normalised,
    or raise [ValueError(msg)]. *)
Inductive checked (A : Type) : Type :=
| Pass (a : A)
| Fail (msg : string).
Arguments Pass {A} a.
Arguments Fail {A} msg.

(** A model built from a request body, or the validation errors collected
    over its attributes. *)
Inductive parsed (A : Type) : Type :=
| Valid (a : A)
| ValidationError (errors : list string).
Arguments Valid {A} a.
Arguments ValidationError {A} errors.

Definition errors_of {A : Type} (c : checked A) : list string :=
  match c with Pass _ => [] | Fail msg => [msg] end.

(** [Field(..., min_length=1)] followed by the attribute's validator. *)
Definition min_length_1 (validator : string -> checked string) (v : string)
  : checked string :=
  if (String.length v <? 1)%nat then Fail "String should have at least 1 character"
  else validator v.

(** The validators of the text attributes all have this shape:
    [if not v.strip(): raise ValueError(msg)], then [return v.strip()]. *)
Definition strip_non_empty (msg : string) (v : string) : checked string :=
  if String.eqb (Py.strip v) "" then Fail msg else Pass (Py.strip v).

(** class WorkflowCreate *)
Record WorkflowCreate : Type := mkWorkflowCreate { wc_name : string }.

Definition WorkflowCreate_validate_name : string -> checked string :=
  strip_non_empty "Workflow name cannot be empty".

Definition WorkflowCreate_parse (name : string) : parsed WorkflowCreate :=
  match min_length_1 WorkflowCreate_validate_name name with
  | Pass n => Valid (mkWorkflowCreate n)
  | Fail msg => ValidationError [msg]
  end.

(** class FieldCreate *)
Record FieldCreate : Type := mkFieldCreate
  { fc_workflow_id : UUID; fc_name : string; fc_data_type : string }.

Definition FieldCreate_validate_name : string -> checked string :=
  strip_non_empty "Field name cannot be empty".

Definition valid_types : list string :=
  ["text"; "number"; "boolean"; "date"; "email"; "url"; "json"].

Definition FieldCreate_validate_data_type (v : string) : checked string :=
  if negb (Py.str_in v valid_types)
  then Fail ("Data type must be one of: " ++ Py.join ", " valid_types)
  else Pass v.

Definition FieldCreate_parse (workflow_id : UUID) (name data_type : string)
  : parsed FieldCreate :=
  match min_length_1 FieldCreate_validate_name name,
        FieldCreate_validate_data_type data_type with
  | Pass n, Pass d => Valid (mkFieldCreate workflow_id n d)
  | cn, cd => ValidationError (errors_of cn ++ errors_of cd)%list
  end.

(** class PromptCreate *)
Record PromptCreate : Type := mkPromptCreate
  { pc_field_id : UUID; pc_prompt_template : string }.

Definition PromptCreate_validate_prompt_template : string -> checked string :=
  strip_non_empty "Prompt template cannot be empty".

Definition PromptCreate_parse (field_id : UUID) (prompt_template : string)
  : parsed PromptCreate :=
  match min_length_1 PromptCreate_validate_prompt_template prompt_template with
  | Pass t => Valid (mkPromptCreate field_id t)
  | Fail msg => ValidationError [msg]
  end.

(** class Prompt *)
Record Prompt : Type := mkPrompt
  { pr_id : UUID; pr_field_id : UUID; pr_prompt_template : string;
    pr_created_at : datetime }.

(** class FieldSchema *)
Record FieldSchema : Type := mkFieldSchema
  { fs_id : UUID; fs_workflow_id : UUID; fs_name : string;
    fs_data_type : string; fs_created_at : datetime;
    fs_prompts : option (list Prompt) }.

(** class Workflow *)
Record Workflow : Type := mkWorkflow
  { wf_id : UUID; wf_name : string; wf_created_at : datetime;
    wf_fields : option (list FieldSchema) }.

(** class FieldWithPrompts(FieldSchema) *)
Record FieldWithPrompts : Type := mkFieldWithPrompts
  { fp_id : UUID; fp_workflow_id : UUID; fp_name : string;
    fp_data_type : string; fp_created_at : datetime;
    fp_prompts : list Prompt }.

(** class WorkflowComplete(Workflow) *)
Record WorkflowComplete : Type := mkWorkflowComplete
  { wcp_id : UUID; wcp_name : string; wcp_created_at : datetime;
    wcp_fields : list FieldWithPrompts }.

(** class WorkflowExecutionRequest *)
Record WorkflowExecutionRequest : Type := mkWorkflowExecutionRequest
  { user_input : string }.

Definition WorkflowExecutionRequest_validate_user_input
  : string -> checked string :=
  strip_non_empty "User input cannot be empty".

Definition WorkflowExecutionRequest_parse (input : string)
  : parsed WorkflowExecutionRequest :=
  match min_length_1 WorkflowExecutionRequest_validate_user_input input with
  | Pass t => Valid (mkWorkflowExecutionRequest t)
  | Fail msg => ValidationError [msg]
  end.

(** class FieldExecutionResult *)
Record FieldExecutionResult : Type := mkFieldExecutionResult
  { field_id : UUID;
    field_name : string;
    data_type : string;
    prompt_template : string;
    ai_response : string;
    execution_success : bool;
    error_message : option string }.

(** class WorkflowExecutionResponse; its attribute [user_input] is named
    [response_user_input] here, apart from the one of the request. *)
Record WorkflowExecutionResponse : Type := mkWorkflowExecutionResponse
  { workflow_id : UUID;
    workflow_name : string;
    response_user_input : string;
    total_fields : nat;
    successful_executions : nat;
    failed_executions : nat;
    field_results : list FieldExecutionResult;
    execution_timestamp : datetime }.

(** *** The update models *)

(** The validators of the optional text attributes:
    [if v is not None and not v.strip(): raise ValueError(msg)], then
    [return v.strip() if v else v]. *)
Definition optional_strip_non_empty (msg : string) (v : option string)
  : checked (option string) :=
  if match v with
     | Some s => String.eqb (Py.strip s) ""
     | None => false
     end
  then Fail msg
  else Pass match v with
            | Some s => if String.eqb s "" then v else Some (Py.strip s)
            | None => v
            end.

(** [Field(None, min_length=1)] followed by the attribute's validator. *)
Definition optional_min_length_1
    (validator : option string -> checked (option string)) (v : option string)
  : checked (option string) :=
  match v with
  | Some s =>
      if (String.length s <? 1)%nat
      then Fail "String should have at least 1 character"
      else validator v
  | None => validator v
  end.

(** class WorkflowUpdate *)
Record WorkflowUpdate : Type := mkWorkflowUpdate { wu_name : option string }.

Definition WorkflowUpdate_validate_name
  : option string -> checked (option string) :=
  optional_strip_non_empty "Workflow name cannot be empty".

Definition WorkflowUpdate_parse (name : option string) : parsed WorkflowUpdate :=
  match optional_min_length_1 WorkflowUpdate_validate_name name with
  | Pass n => Valid (mkWorkflowUpdate n)
  | Fail msg => ValidationError [msg]
  end.

(** class FieldUpdate *)
Record FieldUpdate : Type := mkFieldUpdate
  { fu_name : option string; fu_data_type : option string }.

Definition FieldUpdate_validate_name
  : option string -> checked (option string) :=
  optional_strip_non_empty "Field name cannot be empty".

Definition FieldUpdate_validate_data_type (v : option string)
  : checked (option string) :=
  match v with
  | Some s =>
      if negb (Py.str_in s valid_types)
      then Fail ("Data type must be one of: " ++ Py.join ", " valid_types)
      else Pass v
  | None => Pass v
  end.

Definition FieldUpdate_parse (name data_type : option string)
  : parsed FieldUpdate :=
  match optional_min_length_1 FieldUpdate_validate_name name,
        FieldUpdate_validate_data_type data_type with
  | Pass n, Pass d => Valid (mkFieldUpdate n d)
  | cn, cd => ValidationError (errors_of cn ++ errors_of cd)%list
  end.

(** class PromptUpdate *)
Record PromptUpdate : Type := mkPromptUpdate
  { pu_prompt_template : option string }.

Definition PromptUpdate_validate_prompt_template
  : option string -> checked (option string) :=
  optional_strip_non_empty "Prompt template cannot be empty".

Definition PromptUpdate_parse (prompt_template : option string)
  : parsed PromptUpdate :=
  match optional_min_length_1 PromptUpdate_validate_prompt_template
          prompt_template with
  | Pass t => Valid (mkPromptUpdate t)
  | Fail msg => ValidationError [msg]
  end.

End models.
Import models.

(** ** The external collaborators *)

(** The keyword arguments of [client.chat.completions.create]; a message is
    a role and a content. *)
Record ChatRequest : Type := mkChatRequest
  { cr_model : string;
    cr_messages : list (string * string);
    cr_max_tokens : Z;
    cr_temperature : Q;
    cr_timeout : Q }.

(** A completion: for each choice, [message.content], which may be [None]. *)
Record ChatCompletion : Type := mkChatCompletion
  { choices : list (option string) }.

(** The store client, the generation client and the library calls of the
    handlers.  A store operation is one [....execute()] round trip and
    returns the [data] of its result. *)
Class External (W : Type) : Type :=
  { (** [uuid.UUID(s)]; [None] when it raises [ValueError] *)
    uuid_UUID : string -> option UUID;
    (** [table("workflows").insert({"name": name})] *)
    workflows_insert : string -> M W (list WorkflowRow);
    (** [table("workflows").select("*").eq("id", id)] *)
    workflows_select : UUID -> M W (list WorkflowRow);
    (** [table("workflows").select("id").eq("id", id)] *)
    workflows_select_id : UUID -> M W (list UUID);
    (** [table("fields").insert({"workflow_id", "name", "data_type"})] *)
    fields_insert : UUID -> string -> string -> M W (list FieldRow);
    (** [table("fields").select("*").eq("workflow_id", id)] *)
    fields_select : UUID -> M W (list FieldRow);
    (** [table("fields").delete().eq("id", id)] *)
    fields_delete : UUID -> M W (list FieldRow);
    (** [table("prompts").insert({"field_id", "prompt_template"})] *)
    prompts_insert : UUID -> string -> M W (list PromptRow);
    (** [table("prompts").select("*").eq("field_id", id)] *)
    prompts_select : UUID -> M W (list PromptRow);
    (** [os.getenv("OPENAI_API_KEY")] *)
    getenv_OPENAI_API_KEY : W -> option string;
    (** [client.chat.completions.create(...)] *)
    chat_completions_create : ChatRequest -> M W ChatCompletion;
    (** [datetime.utcnow()] *)
    utcnow : W -> datetime }.

(** The two calls made only to see whether a collaborator answers. *)
Class Probes (W : Type) : Type :=
  { (** [table("workflows").select("id").limit(1)] *)
    workflows_select_id_limit_1 : M W (list UUID);
    (** [client.chat.completions.create(model="gpt-3.5-turbo",
        messages=[{"role": "user", "content": "Hello"}], max_tokens=10,
        timeout=10.0)] *)
    chat_completions_hello : M W ChatCompletion }.

(** ** services.py *)

Module services.
Section WithExternal.
Context {W : Type} {E : External W}.

Definition system_content : string :=
  "You are a helpful AI assistant. Follow the instructions in the prompt carefully.".

(** [f"{prompt_template}\n\nUser Input: {user_input}"] *)
Definition combined_prompt (prompt_template user_input : string) : string :=
  prompt_template ++ Py.nl ++ Py.nl ++ "User Input: " ++ user_input.

(** The one request [execute_prompt] makes. *)
Definition completion_request (prompt_template user_input : string)
  : ChatRequest :=
  {| cr_model := "gpt-3.5-turbo";
     cr_messages :=
       [("system", system_content);
        ("user", combined_prompt prompt_template user_input)];
     cr_max_tokens := 1000;
     cr_temperature := (7 # 10)%Q;
     cr_timeout := (30 # 1)%Q |}.

(** [not os.getenv("OPENAI_API_KEY")] *)
Definition api_key_missing (w : W) : bool :=
  match getenv_OPENAI_API_KEY w with
  | None => true
  | Some k => String.eqb k ""
  end.

(** [raise openai.APIError(message)].  The class of the client library is
    constructed from a message, the request and a body; called with the
    message alone the constructor raises [TypeError], so that is the
    exception the statement raises, and the message is lost. *)
Definition raise_APIError {A : Type} (message : string) : M W A :=
  raise (OtherException
           "APIError.__init__() missing 1 required positional argument: 'request'").

(** [response.choices[0].message.content.strip()] *)
Definition first_choice_text (response : ChatCompletion) : M W string :=
  match choices response with
  | [] => raise (OtherException "list index out of range")
  | None :: _ =>
      raise (OtherException "'NoneType' object has no attribute 'strip'")
  | Some content :: _ => ret (Py.strip content)
  end.

Definition execute_prompt (prompt_template user_input : string) : M W string :=
  missing <- read api_key_missing ;;
  if missing : bool
  then raise (ValueError "OPENAI_API_KEY environment variable is required")
  else
    catch
      (response <- chat_completions_create
                     (completion_request prompt_template user_input) ;;
       first_choice_text response)
      (fun e =>
         match e with
         | OpenAIAPIError _ =>
             raise_APIError ("OpenAI API error: " ++ str_exn e)
         | _ =>
             raise (OtherException
                      ("Unexpected error during prompt execution: " ++ str_exn e))
         end).

(** [system_message or "You are a helpful AI assistant. ..."] *)
Definition system_message_or_default (system_message : option string)
  : string :=
  match system_message with
  | Some m => if String.eqb m "" then system_content else m
  | None => system_content
  end.

(** The request of [execute_prompt_with_custom_params]. *)
Definition custom_request (prompt_template user_input model : string)
    (max_tokens : Z) (temperature : Q) (system_message : option string)
  : ChatRequest :=
  {| cr_model := model;
     cr_messages :=
       [("system", system_message_or_default system_message);
        ("user", combined_prompt prompt_template user_input)];
     cr_max_tokens := max_tokens;
     cr_temperature := temperature;
     cr_timeout := (30 # 1)%Q |}.

Definition execute_prompt_with_custom_params
    (prompt_template user_input model : string) (max_tokens : Z)
    (temperature : Q) (system_message : option string) : M W string :=
  missing <- read api_key_missing ;;
  if missing : bool
  then raise (ValueError "OPENAI_API_KEY environment variable is required")
  else
    catch
      (response <- chat_completions_create
                     (custom_request prompt_template user_input model
                        max_tokens temperature system_message) ;;
       first_choice_text response)
      (fun e =>
         match e with
         | OpenAIAPIError _ =>
             raise_APIError ("OpenAI API error: " ++ str_exn e)
         | _ =>
             raise (OtherException
                      ("Unexpected error during prompt execution: " ++ str_exn e))
         end).

(** [response.choices[0].message.content is not None] *)
Definition first_choice_has_content (response : ChatCompletion) : M W bool :=
  match choices response with
  | [] => raise (OtherException "list index out of range")
  | Some _ :: _ => ret true
  | None :: _ => ret false
  end.

Definition test_openai_connection {P : Probes W} : M W bool :=
  catch
    (missing <- read api_key_missing ;;
     if missing : bool
     then ret false
     else
       response <- chat_completions_hello ;;
       first_choice_has_content response)
    (fun _ => ret false).

End WithExternal.
End services.

(** ** database.py *)

Module database.
Section WithEnvironment.
Context {W Client : Type}.

(** [os.getenv(name)] *)
Variable getenv : string -> W -> option string.
(** [create_client(supabase_url, supabase_key)] *)
Variable create_client : string -> string -> M W Client.

(** [not value] for the value of an environment variable. *)
Definition unset (value : option string) : bool :=
  match value with
  | None => true
  | Some v => String.eqb v ""
  end.

Definition get_supabase_client : M W Client :=
  supabase_url <- read (getenv "SUPABASE_URL") ;;
  supabase_key <- read (getenv "SUPABASE_SERVICE_KEY") ;;
  if unset supabase_url
  then raise (ValueError "SUPABASE_URL environment variable is required")
  else if unset supabase_key
  then raise (ValueError "SUPABASE_SERVICE_KEY environment variable is required")
  else create_client (match supabase_url with Some v => v | None => "" end)
         (match supabase_key with Some v => v | None => "" end).

End WithEnvironment.
End database.

(** ** main.py *)

Module main.

(** What a route answers: a status code and a body, an error detail or
    the errors of request validation, listed by the messages of the
    exceptions the validators raised. *)
Inductive payload (A : Type) : Type :=
| Body (a : A)
| Detail (detail : string)
| RequestValidationErrors (errors : list string).
Arguments Body {A} a.
Arguments Detail {A} detail.
Arguments RequestValidationErrors {A} errors.

Record Response (A : Type) : Type := mkResponse
  { status : Z; content : payload A }.
Arguments mkResponse {A} status content.
Arguments status {A} r.
Arguments content {A} r.

Section WithExternal.
Context {W : Type} {E : External W}.

(** ["duplicate key value" in str(e).lower()] *)
Definition is_duplicate_key (e : exn) : bool :=
  Py.contains "duplicate key value" (Py.lower (str_exn e)).

(** The inner [try] of the three handlers that take a path identifier:
    [uuid.UUID(workflow_id)], a [ValueError] becoming a 400. *)
Definition validate_uuid_format (workflow_id : string) : M W UUID :=
  match uuid_UUID workflow_id with
  | Some workflow_uuid => ret workflow_uuid
  | None => raise (HTTPException 400 "Invalid workflow ID format")
  end.

(** [except HTTPException: raise], then [except Exception as e: ...]. *)
Definition except_http_reraise {A : Type} (other : exn -> M W A) (e : exn)
  : M W A :=
  match e with
  | HTTPException _ _ => raise e
  | _ => other e
  end.

Definition create_workflow (workflow_data : WorkflowCreate) : M W Workflow :=
  catch
    (result <- workflows_insert (wc_name workflow_data) ;;
     match result with
     | [] => raise (HTTPException 500 "Failed to create workflow")
     | workflow :: _ =>
         ret (mkWorkflow (w_id workflow) (w_name workflow)
                (w_created_at workflow) None)
     end)
    (fun e =>
       if is_duplicate_key e
       then raise (HTTPException 409 "A workflow with this name already exists")
       else raise (HTTPException 500 ("Database error: " ++ str_exn e))).

Definition Prompt_of_row (prompt : PromptRow) : Prompt :=
  mkPrompt (p_id prompt) (p_field_id prompt) (p_prompt_template prompt)
    (p_created_at prompt).

Definition get_workflow (workflow_id : string) : M W WorkflowComplete :=
  catch
    (workflow_uuid <- validate_uuid_format workflow_id ;;
     workflow_result <- workflows_select workflow_uuid ;;
     match workflow_result with
     | [] => raise (HTTPException 404 "Workflow not found")
     | workflow :: _ =>
         fields_result <- fields_select workflow_uuid ;;
         fields <-
           for_each
             (fun fields field_data =>
                prompts_result <- prompts_select (f_id field_data) ;;
                let prompts := map Prompt_of_row prompts_result in
                ret (fields ++
                     [mkFieldWithPrompts (f_id field_data)
                        (f_workflow_id field_data) (f_name field_data)
                        (f_data_type field_data) (f_created_at field_data)
                        prompts])%list)
             fields_result [] ;;
         ret (mkWorkflowComplete (w_id workflow) (w_name workflow)
                (w_created_at workflow) fields)
     end)
    (except_http_reraise
       (fun e => raise (HTTPException 500 ("Database error: " ++ str_exn e)))).

Definition create_field_with_prompt (workflow_id : string)
    (field_data : FieldCreate) (prompt_data : PromptCreate)
  : M W FieldWithPrompts :=
  catch
    (workflow_uuid <- validate_uuid_format workflow_id ;;
     workflow_result <- workflows_select_id workflow_uuid ;;
     match workflow_result with
     | [] => raise (HTTPException 404 "Workflow not found")
     | _ :: _ =>
         if negb (N.eqb (fc_workflow_id field_data) workflow_uuid)
         then raise (HTTPException 400
                       "Field workflow_id must match the URL workflow_id")
         else
           field_result <- fields_insert workflow_uuid (fc_name field_data)
                             (fc_data_type field_data) ;;
           match field_result with
           | [] => raise (HTTPException 500 "Failed to create field")
           | field :: _ =>
               let field_id := f_id field in
               if negb (N.eqb (pc_field_id prompt_data) field_id)
               then raise (HTTPException 400
                             "Prompt field_id must match the created field ID")
               else
                 prompt_result <- prompts_insert field_id
                                    (pc_prompt_template prompt_data) ;;
                 match prompt_result with
                 | [] =>
                     (* If prompt creation fails, clean up the field *)
                     _ <- fields_delete field_id ;;
                     raise (HTTPException 500 "Failed to create prompt")
                 | prompt :: _ =>
                     ret (mkFieldWithPrompts (f_id field) (f_workflow_id field)
                            (f_name field) (f_data_type field)
                            (f_created_at field) [Prompt_of_row prompt])
                 end
           end
     end)
    (except_http_reraise
       (fun e =>
          if is_duplicate_key e
          then raise (HTTPException 409
                        "A field with this name already exists in this workflow")
          else raise (HTTPException 500 ("Database error: " ++ str_exn e)))).

(** The three local variables the loop of [execute_workflow] updates. *)
Record Locals : Type := mkLocals
  { l_field_results : list FieldExecutionResult;
    l_successful_executions : nat;
    l_failed_executions : nat }.

Definition append_failed (st : Locals) (r : FieldExecutionResult) : Locals :=
  mkLocals (l_field_results st ++ [r])%list (l_successful_executions st)
    (l_failed_executions st + 1).

Definition append_successful (st : Locals) (r : FieldExecutionResult) : Locals :=
  mkLocals (l_field_results st ++ [r])%list (l_successful_executions st + 1)
    (l_failed_executions st).

(** The result recorded for a field without prompts. *)
Definition no_prompts_result (field : FieldRow) : FieldExecutionResult :=
  mkFieldExecutionResult (f_id field) (f_name field) (f_data_type field)
    "" "" false (Some "No prompts found for this field").

(** The result recorded when [execute_prompt] returned. *)
Definition success_result (field : FieldRow) (prompt : PromptRow)
    (ai_response : string) : FieldExecutionResult :=
  mkFieldExecutionResult (f_id field) (f_name field) (f_data_type field)
    (p_prompt_template prompt) ai_response true None.

(** The result recorded when [execute_prompt] raised [e]. *)
Definition error_result (field : FieldRow) (prompt : PromptRow) (e : exn)
  : FieldExecutionResult :=
  mkFieldExecutionResult (f_id field) (f_name field) (f_data_type field)
    (p_prompt_template prompt) "" false (Some (str_exn e)).

(** The body of [for field in fields]. *)
Definition process_field (execution_request : WorkflowExecutionRequest)
    (st : Locals) (field : FieldRow) : M W Locals :=
  prompts_result <- prompts_select (f_id field) ;;
  match prompts_result with
  | [] => ret (append_failed st (no_prompts_result field))
  | prompt :: _ =>
      catch
        (ai_response <- services.execute_prompt (p_prompt_template prompt)
                          (user_input execution_request) ;;
         ret (append_successful st (success_result field prompt ai_response)))
        (fun e => ret (append_failed st (error_result field prompt e)))
  end.

Definition execute_workflow (workflow_id : string)
    (execution_request : WorkflowExecutionRequest)
  : M W WorkflowExecutionResponse :=
  catch
    (workflow_uuid <- validate_uuid_format workflow_id ;;
     workflow_result <- workflows_select workflow_uuid ;;
     match workflow_result with
     | [] => raise (HTTPException 404 "Workflow not found")
     | workflow :: _ =>
         fields_result <- fields_select workflow_uuid ;;
         match fields_result with
         | [] => raise (HTTPException 404 "No fields found for this workflow")
         | _ :: _ =>
             let fields := fields_result in
             st <- for_each (process_field execution_request) fields
                     (mkLocals [] 0 0) ;;
             now <- read utcnow ;;
             ret (mkWorkflowExecutionResponse (w_id workflow) (w_name workflow)
                    (user_input execution_request) (length fields)
                    (l_successful_executions st) (l_failed_executions st)
                    (l_field_results st) now)
         end
     end)
    (except_http_reraise
       (fun e =>
          raise (HTTPException 500
                   ("Unexpected error during workflow execution: "
                    ++ str_exn e)))).

(** *** The routes

    What the framework does around a handler: a request body that does not
    validate is answered 422 without the handler being called; a handler
    that returns is answered with the status code of its route; an
    [HTTPException] is answered with its own status code and detail. *)

Definition respond {A : Type} (status_code : Z) (handler : M W A) (w : W)
  : Response A * W :=
  match handler w with
  | (Returned a, w') => (mkResponse status_code (Body a), w')
  | (Raised (HTTPException s d), w') => (mkResponse s (Detail d), w')
  | (Raised _, w') => (mkResponse 500 (Detail "Internal Server Error"), w')
  end.

Definition unprocessable {A : Type} (errors : list string) (w : W)
  : Response A * W :=
  (mkResponse 422 (RequestValidationErrors errors), w).

Definition errors_of_parsed {A : Type} (p : parsed A) : list string :=
  match p with Valid _ => [] | ValidationError errors => errors end.

(** [@app.post("/workflows/", status_code=201)] *)
Definition POST_workflows (name : string) : W -> Response Workflow * W :=
  match WorkflowCreate_parse name with
  | Valid workflow_data => respond 201 (create_workflow workflow_data)
  | ValidationError errors => unprocessable errors
  end.

(** [@app.get("/workflows/{workflow_id}")] *)
Definition GET_workflow (workflow_id : string)
  : W -> Response WorkflowComplete * W :=
  respond 200 (get_workflow workflow_id).

(** [@app.post("/workflows/{workflow_id}/fields", status_code=201)]; the
    body carries [field_data] and [prompt_data]. *)
Definition POST_workflow_fields (workflow_id : string)
    (field_workflow_id : UUID) (field_name field_data_type : string)
    (prompt_field_id : UUID) (prompt_template : string)
  : W -> Response FieldWithPrompts * W :=
  match FieldCreate_parse field_workflow_id field_name field_data_type,
        PromptCreate_parse prompt_field_id prompt_template with
  | Valid field_data, Valid prompt_data =>
      respond 201 (create_field_with_prompt workflow_id field_data prompt_data)
  | pf, pp => unprocessable (errors_of_parsed pf ++ errors_of_parsed pp)%list
  end.

(** [@app.post("/workflows/{workflow_id}/execute")] *)
Definition POST_workflow_execute (workflow_id : string) (input : string)
  : W -> Response WorkflowExecutionResponse * W :=
  match WorkflowExecutionRequest_parse input with
  | Valid execution_request =>
      respond 200 (execute_workflow workflow_id execution_request)
  | ValidationError errors => unprocessable errors
  end.

(** What [health_check] returns: a dictionary, answered 200, or a
    [JSONResponse] with status 503. *)
Definition health_check {P : Probes W} : M W (Response (list (string * string))) :=
  catch
    (_ <- workflows_select_id_limit_1 ;;
     ret (mkResponse 200
            (Body [("status", "healthy"); ("database", "connected")])))
    (fun e =>
       ret (mkResponse 503
              (Body [("status", "unhealthy"); ("database", "disconnected");
                     ("error", str_exn e)]))).

(** [@app.get("/health")] *)
Definition GET_health {P : Probes W} (w : W)
  : Response (list (string * string)) * W :=
  match health_check w with
  | (Returned r, w') => (r, w')
  | (Raised (HTTPException s d), w') => (mkResponse s (Detail d), w')
  | (Raised _, w') => (mkResponse 500 (Detail "Internal Server Error"), w')
  end.

End WithExternal.
End main.

(** ** An executable world

    Three tables kept in insertion order, a store that assigns consecutive
    identifiers, a unique index on workflow names, foreign keys from fields
    to workflows and from prompts to fields, and a generation API that
    answers from a script.  Each store round trip first consults the
    forecast: it may raise, or come back without rows and without having
    written. *)

Module Mem.

Inductive forecast : Type :=
| Fine
| Raises (e : exn)
| NoRows.

Record World : Type := mkWorld
  { workflows : list WorkflowRow;
    fields : list FieldRow;
    prompts : list PromptRow;
    next_id : UUID;
    clock : datetime;
    forecasts : list forecast;
    api_key : option string;
    completions : list (reply ChatCompletion);
    sent : list ChatRequest }.

Definition with_forecasts (fc : list forecast) (w : World) : World :=
  mkWorld (workflows w) (fields w) (prompts w) (next_id w) (clock w) fc
    (api_key w) (completions w) (sent w).

Definition with_tables (ws : list WorkflowRow) (fs : list FieldRow)
    (ps : list PromptRow) (next : UUID) (w : World) : World :=
  mkWorld ws fs ps next (clock w) (forecasts w) (api_key w) (completions w)
    (sent w).

(** One round trip to the store. *)
Definition round_trip {A : Type} (op : World -> reply (list A) * World)
  : M World (list A) :=
  fun w =>
    match forecasts w with
    | [] => op w
    | Fine :: rest => op (with_forecasts rest w)
    | Raises e :: rest => (Raised e, with_forecasts rest w)
    | NoRows :: rest => (Returned [], with_forecasts rest w)
    end.

Definition hex_digit (c : ascii) : option N :=
  let n := N_of_ascii c in
  if ((48 <=? n) && (n <=? 57))%N then Some (n - 48)%N
  else if ((97 <=? n) && (n <=? 102))%N then Some (n - 87)%N
  else if ((65 <=? n) && (n <=? 70))%N then Some (n - 55)%N
  else None.

(** [s[n:]] *)
Fixpoint drop (n : nat) (s : string) : string :=
  match n, s with
  | O, _ => s
  | S _, EmptyString => EmptyString
  | S n', String _ s' => drop n' s'
  end.

(** [s.replace(old, "")] for a non-empty [old]: the occurrences are found
    from the left and do not overlap. *)
Fixpoint remove_fuel (fuel : nat) (old s : string) : string :=
  match fuel with
  | O => s
  | S fuel' =>
      match s with
      | EmptyString => EmptyString
      | String c s' =>
          if String.prefix old s
          then remove_fuel fuel' old (drop (String.length old) s)
          else String c (remove_fuel fuel' old s')
      end
  end.

Definition remove (old s : string) : string :=
  remove_fuel (String.length s) old s.

Fixpoint lstrip_by (p : ascii -> bool) (s : string) : string :=
  match s with
  | EmptyString => EmptyString
  | String c s' => if p c then lstrip_by p s' else s
  end.

Fixpoint rstrip_by (p : ascii -> bool) (s : string) : string :=
  match s with
  | EmptyString => EmptyString
  | String c s' =>
      match rstrip_by p s' with
      | EmptyString => if p c then EmptyString else String c EmptyString
      | r => String c r
      end
  end.

(** [s.strip(chars)] *)
Definition strip_by (p : ascii -> bool) (s : string) : string :=
  rstrip_by p (lstrip_by p s).

Definition is_brace (c : ascii) : bool :=
  Ascii.eqb c "{" || Ascii.eqb c "}".

(** The white space [int()] skips around a literal: TAB..CR and SPACE,
    and of the code points from 128 to 255 NEL and NBSP. *)
Definition int_space (c : ascii) : bool :=
  let n := nat_of_ascii c in
  (((9 <=? n) && (n <=? 13)) || (n =? 32) || (n =? 133) || (n =? 160))%nat.

(** Hexadecimal digits with single underscores between them. *)
Fixpoint hex_run (s : string) (after_underscore : bool) (count : nat) (acc : N)
  : option N :=
  match s with
  | EmptyString =>
      if after_underscore then None
      else if (count =? 0)%nat then None else Some acc
  | String c s' =>
      if Ascii.eqb c "_"
      then if after_underscore then None else hex_run s' true count acc
      else match hex_digit c with
           | Some d => hex_run s' false (S count) (16 * acc + d)%N
           | None => None
           end
  end.

(** [int(s, 16)]: white space around, a sign, the prefix 0x or 0X with one
    underscore allowed after it, then the digits; [None] when it raises
    [ValueError]. *)
Definition int_16 (s : string) : option Z :=
  let s := strip_by int_space s in
  let '(negative, s) :=
    match s with
    | String "+" r => (false, r)
    | String "-" r => (true, r)
    | _ => (false, s)
    end in
  let s :=
    match s with
    | String "0" (String x r) =>
        if Ascii.eqb x "x" || Ascii.eqb x "X"
        then match r with
             | String "_" r' => r'
             | _ => r
             end
        else s
    | _ => s
    end in
  match s with
  | String "_" _ => None
  | _ =>
      match hex_run s false 0 0%N with
      | Some v => Some (if negative : bool then (- Z.of_N v)%Z else Z.of_N v)
      | None => None
      end
  end.

(** [uuid.UUID(s)] for a string: the markers "urn:" and "uuid:" are
    removed, then braces at both ends, then the hyphens; what is left must
    be 32 characters that [int(_, 16)] reads as a number from 0 below
    2^128. *)
Definition parse_uuid (s : string) : option UUID :=
  let hex := remove "uuid:" (remove "urn:" s) in
  let hex := remove "-" (strip_by is_brace hex) in
  if negb (String.length hex =? 32)%nat then None
  else match int_16 hex with
       | Some v =>
           if ((0 <=? v) && (v <? 2 ^ 128))%Z then Some (Z.to_N v) else None
       | None => None
       end.

Definition insert_workflow (name : string) (w : World)
  : reply (list WorkflowRow) * World :=
  if existsb (fun r => String.eqb (w_name r) name) (workflows w)
  then (Raised (OtherException
                  "duplicate key value violates unique constraint workflows_name_key"),
        w)
  else
    let row := mkWorkflowRow (next_id w) name (clock w) in
    (Returned [row],
     with_tables (workflows w ++ [row]) (fields w) (prompts w)
       (next_id w + 1)%N w).

Definition insert_field (workflow_id : UUID) (name data_type : string)
    (w : World) : reply (list FieldRow) * World :=
  if existsb (fun r => N.eqb (w_id r) workflow_id) (workflows w)
  then
    let row := mkFieldRow (next_id w) workflow_id name data_type (clock w) in
    (Returned [row],
     with_tables (workflows w) (fields w ++ [row]) (prompts w)
       (next_id w + 1)%N w)
  else (Raised (OtherException
                  "insert on table fields violates foreign key constraint fields_workflow_id_fkey"),
        w).

Definition insert_prompt (field_id : UUID) (template : string) (w : World)
  : reply (list PromptRow) * World :=
  if existsb (fun r => N.eqb (f_id r) field_id) (fields w)
  then
    let row := mkPromptRow (next_id w) field_id template (clock w) in
    (Returned [row],
     with_tables (workflows w) (fields w) (prompts w ++ [row])
       (next_id w + 1)%N w)
  else (Raised (OtherException
                  "insert on table prompts violates foreign key constraint prompts_field_id_fkey"),
        w).

(** Deleting a field returns the deleted rows; its prompts go with it. *)
Definition delete_field (id : UUID) (w : World)
  : reply (list FieldRow) * World :=
  (Returned (filter (fun r => N.eqb (f_id r) id) (fields w)),
   with_tables (workflows w)
     (filter (fun r => negb (N.eqb (f_id r) id)) (fields w))
     (filter (fun r => negb (N.eqb (p_field_id r) id)) (prompts w))
     (next_id w) w).

Definition complete (request : ChatRequest) (w : World)
  : reply ChatCompletion * World :=
  let log := (sent w ++ [request])%list in
  match completions w with
  | [] =>
      (Raised (OpenAIAPIError "Connection error."),
       mkWorld (workflows w) (fields w) (prompts w) (next_id w) (clock w)
         (forecasts w) (api_key w) [] log)
  | r :: rest =>
      (r,
       mkWorld (workflows w) (fields w) (prompts w) (next_id w) (clock w)
         (forecasts w) (api_key w) rest log)
  end.

#[export] Instance external : External World :=
  {| uuid_UUID := parse_uuid;
     workflows_insert := fun name => round_trip (insert_workflow name);
     workflows_select := fun id =>
       round_trip (fun w =>
         (Returned (filter (fun r => N.eqb (w_id r) id) (workflows w)), w));
     workflows_select_id := fun id =>
       round_trip (fun w =>
         (Returned (map w_id
                      (filter (fun r => N.eqb (w_id r) id) (workflows w))), w));
     fields_insert := fun workflow_id name data_type =>
       round_trip (insert_field workflow_id name data_type);
     fields_select := fun id =>
       round_trip (fun w =>
         (Returned (filter (fun r => N.eqb (f_workflow_id r) id) (fields w)),
          w));
     fields_delete := fun id => round_trip (delete_field id);
     prompts_insert := fun field_id template =>
       round_trip (insert_prompt field_id template);
     prompts_select := fun id =>
       round_trip (fun w =>
         (Returned (filter (fun r => N.eqb (p_field_id r) id) (prompts w)), w));
     getenv_OPENAI_API_KEY := api_key;
     chat_completions_create := complete;
     utcnow := clock |}.

(** A store holding one workflow, "intake", whose identifier is 1. *)
Definition intake_id : string := "00000000-0000-0000-0000-000000000001".

Definition intake_row : WorkflowRow := mkWorkflowRow 1%N "intake" 1700000000%Z.

Definition one_workflow : World :=
  mkWorld [intake_row] [] [] 2%N 1700000100%Z [] (Some "sk-test") [] [].

(** The same workflow with three fields: "summary" and "tags" have one
    prompt each, "notes" has none. *)
Definition summary_field : FieldRow :=
  mkFieldRow 2%N 1%N "summary" "text" 1700000010%Z.
Definition notes_field : FieldRow :=
  mkFieldRow 3%N 1%N "notes" "text" 1700000020%Z.
Definition tags_field : FieldRow :=
  mkFieldRow 4%N 1%N "tags" "json" 1700000030%Z.
Definition summary_prompt : PromptRow :=
  mkPromptRow 5%N 2%N "Summarise" 1700000040%Z.
Definition tags_prompt : PromptRow :=
  mkPromptRow 6%N 4%N "List tags" 1700000050%Z.

Definition three_fields (fc : list forecast)
    (answers : list (reply ChatCompletion)) : World :=
  mkWorld [intake_row] [summary_field; notes_field; tags_field]
    [summary_prompt; tags_prompt] 7%N 1700000100%Z fc (Some "sk-test") answers [].

(** A completion with one choice. *)
Definition answer (text : string) : reply ChatCompletion :=
  Returned (mkChatCompletion [Some text]).

(** The first generation returns, the second raises. *)
Definition second_generation_fails : World :=
  three_fields [] [answer " A summary. "; Raised (OpenAIAPIError "Rate limit")].

(** The two lookups go through, the first prompt fetch raises. *)
Definition prompt_fetch_down : World :=
  three_fields [Fine; Fine; Raises (OtherException "connection reset")]
    [answer " A summary. "; answer "[]"].

(** Two fields, one prompt each, and two completions. *)
Definition two_fields : World :=
  mkWorld [intake_row] [summary_field; tags_field]
    [summary_prompt; tags_prompt] 7%N 1700000100%Z []
    (Some "sk-test") [answer " A summary. "; answer "[]"] [].

(** The API key is the empty string. *)
Definition empty_key : World :=
  mkWorld [intake_row] [] [] 2%N 1700000100%Z [] (Some "") [answer "Hi"] [].

(** One completion, surrounded by white space. *)
Definition one_answer : World :=
  mkWorld [intake_row] [] [] 2%N 1700000100%Z [] (Some "sk-test")
    [answer "  Hi there  "] [].

(** The workflow lookup and the field insert go through, the prompt insert
    raises. *)
Definition prompt_insert_down : World :=
  with_forecasts [Fine; Fine; Raises (OtherException "connection reset")]
    one_workflow.

(** The workflow lookup and the field insert go through, the prompt insert
    comes back without rows. *)
Definition prompt_insert_empty : World :=
  with_forecasts [Fine; Fine; NoRows] one_workflow.

(** The request of the connection test as the log records it; the call
    leaves the temperature to the API's default. *)
Definition hello_request : ChatRequest :=
  {| cr_model := "gpt-3.5-turbo";
     cr_messages := [("user", "Hello")];
     cr_max_tokens := 10;
     cr_temperature := (1 # 1)%Q;
     cr_timeout := (10 # 1)%Q |}.

#[export] Instance probes : Probes World :=
  {| workflows_select_id_limit_1 :=
       round_trip (fun w => (Returned (map w_id (firstn 1 (workflows w))), w));
     chat_completions_hello := complete hello_request |}.

(** The store raises on the next round trip. *)
Definition store_down : World :=
  with_forecasts [Raises (OtherException "connection refused")] one_workflow.

(** The next insert comes back without rows. *)
Definition insert_empty : World := with_forecasts [NoRows] one_workflow.

(** The API refuses the request. *)
Definition rate_limited : World :=
  mkWorld [intake_row] [] [] 2%N 1700000100%Z [] (Some "sk-test")
    [Raised (OpenAIAPIError "Rate limit reached")] [].

(** The API answers a choice without content. *)
Definition null_content : World :=
  mkWorld [intake_row] [] [] 2%N 1700000100%Z [] (Some "sk-test")
    [Returned (mkChatCompletion [None])] [].

(** The field "summary" with a second prompt. *)
Definition spare_prompt : PromptRow :=
  mkPromptRow 7%N 2%N "Summarise in French" 1700000060%Z.

Definition two_prompts : World :=
  mkWorld [intake_row] [summary_field] [summary_prompt; spare_prompt] 8%N
    1700000100%Z [] (Some "sk-test") [answer " A summary. "] [].

(** The field insert raises a unique violation. *)
Definition field_name_taken : World :=
  with_forecasts
    [Fine;
     Raises (OtherException
               "duplicate key value violates unique constraint fields_name_key")]
    one_workflow.

(** The prompt insert comes back without rows and the delete raises. *)
Definition delete_down : World :=
  with_forecasts [Fine; Fine; NoRows; Raises (OtherException "connection reset")]
    one_workflow.

(** The three tables are the same in both worlds. *)
Definition same_tables (w w' : World) : Prop :=
  workflows w' = workflows w /\ fields w' = fields w /\ prompts w' = prompts w.

(** The number of generation requests made so far. *)
Definition requests (w : World) : nat := length (sent w).

(** A process environment as a list of variables. *)
Definition environment : Type := list (string * string).

Fixpoint getenv (name : string) (env : environment) : option string :=
  match env with
  | [] => None
  | (n, v) :: env' => if String.eqb n name then Some v else getenv name env'
  end.

(** A client is the URL and the key it was created with. *)
Definition create_client (url key : string) : M environment (string * string) :=
  ret (url, key).

End Mem.

(** ** Vocabulary of the statements *)

Module Spec.
Import main.

(** The entry [r] is the one recorded for the field [f]. *)
Definition describes (f : FieldRow) (r : FieldExecutionResult) : Prop :=
  field_id r = f_id f /\ field_name r = f_name f /\ data_type r = f_data_type f.

(** Success goes with no error message; a failure carries no response. *)
Definition coherent (r : FieldExecutionResult) : Prop :=
  (execution_success r = true <-> error_message r = None)
  /\ (execution_success r = false -> ai_response r = "").

Definition count_successful (rs : list FieldExecutionResult) : nat :=
  length (filter execution_success rs).

Definition count_failed (rs : list FieldExecutionResult) : nat :=
  length (filter (fun r => negb (execution_success r)) rs).

(** The entries of a run in which every field had a prompt and every
    generation returned: [outs] pairs the prompt used with the text
    generated, field by field. *)
Definition success_results (fs : list FieldRow)
    (outs : list (PromptRow * string)) : list FieldExecutionResult :=
  map (fun fo => success_result (fst fo) (fst (snd fo)) (snd (snd fo)))
    (combine fs outs).

(** What the exception [e], escaping the body of [execute_workflow], is
    turned into. *)
Definition escaped (e : exn) : exn :=
  match e with
  | HTTPException _ _ => e
  | _ => HTTPException 500
           ("Unexpected error during workflow execution: " ++ str_exn e)
  end.

Section WithExternal.
Context {W : Type} {E : External W}.

(** Starting in [w], the loop over [fs] finds at least one prompt for each
    field in turn and each call of [execute_prompt] returns; [outs] lists
    the first prompt and the returned text per field, [w'] is the world
    after the last call. *)
Inductive every_generation_succeeds (req : WorkflowExecutionRequest)
  : list FieldRow -> W -> list (PromptRow * string) -> W -> Prop :=
| egs_nil (w : W) : every_generation_succeeds req [] w [] w
| egs_cons (f : FieldRow) (fs : list FieldRow) (w w1 w2 w3 : W)
    (p : PromptRow) (ps : list PromptRow) (text : string)
    (outs : list (PromptRow * string)) :
    prompts_select (f_id f) w = (Returned (p :: ps), w1) ->
    services.execute_prompt (p_prompt_template p) (user_input req) w1
    = (Returned text, w2) ->
    every_generation_succeeds req fs w2 outs w3 ->
    every_generation_succeeds req (f :: fs) w ((p, text) :: outs) w3.

End WithExternal.
End Spec.

(** ** Further vocabulary *)

Module Props.
Import main.

(** The string is made of white space only; the empty string is. *)
Fixpoint all_space (s : string) : bool :=
  match s with
  | EmptyString => true
  | String c s' => Py.isspace c && all_space s'
  end.

(** An attribute check applied to an optional value: an absent value
    passes as it is, a present one is checked. *)
Definition when_present (check : string -> checked string) (v : option string)
  : checked (option string) :=
  match v with
  | None => Pass None
  | Some s =>
      match check s with
      | Pass n => Pass (Some n)
      | Fail msg => Fail msg
      end
  end.

(** What an exception escaping the body of [get_workflow] is turned
    into. *)
Definition database_error (e : exn) : exn :=
  match e with
  | HTTPException _ _ => e
  | _ => HTTPException 500 ("Database error: " ++ str_exn e)
  end.

(** What an exception escaping the body of [create_field_with_prompt] is
    turned into. *)
Definition field_error (e : exn) : exn :=
  match e with
  | HTTPException _ _ => e
  | _ =>
      if is_duplicate_key e
      then HTTPException 409
             "A field with this name already exists in this workflow"
      else HTTPException 500 ("Database error: " ++ str_exn e)
  end.

(** The field of a fetched workflow made of a row and its prompt rows. *)
Definition nested (f : FieldRow) (ps : list PromptRow) : FieldWithPrompts :=
  mkFieldWithPrompts (f_id f) (f_workflow_id f) (f_name f) (f_data_type f)
    (f_created_at f) (map Prompt_of_row ps).

Definition tree (fs : list FieldRow) (pss : list (list PromptRow))
  : list FieldWithPrompts :=
  map (fun fp => nested (fst fp) (snd fp)) (combine fs pss).

Section WithExternal.
Context {W : Type} {E : External W}.

(** The body of the loop of [get_workflow]. *)
Definition nest_field (fields : list FieldWithPrompts) (field_data : FieldRow)
  : M W (list FieldWithPrompts) :=
  prompts_result <- prompts_select (f_id field_data) ;;
  ret (fields ++ [nested field_data prompts_result])%list.

(** Starting in [w], the prompt fetches for [fs], made in turn, all
    return; [pss] lists the rows returned per field. *)
Inductive every_fetch_returns
  : list FieldRow -> W -> list (list PromptRow) -> W -> Prop :=
| efr_nil (w : W) : every_fetch_returns [] w [] w
| efr_cons (f : FieldRow) (fs : list FieldRow) (w w1 w2 : W)
    (ps : list PromptRow) (pss : list (list PromptRow)) :
    prompts_select (f_id f) w = (Returned ps, w1) ->
    every_fetch_returns fs w1 pss w2 ->
    every_fetch_returns (f :: fs) w (ps :: pss) w2.

(** The relation [R] holds between the world a computation starts in and
    the world it leaves. *)
Definition kept_by {A : Type} (R : W -> W -> Prop) (m : M W A) : Prop :=
  forall w, R w (snd (m w)).

(** The computation adds at most [n] to the measure [cost]. *)
Definition costs_at_most {A : Type} (cost : W -> nat) (n : nat) (m : M W A)
  : Prop :=
  forall w, cost (snd (m w)) <= cost w + n.

End WithExternal.
End Props.

(** ** Running the monad *)

Section Runs.
Context {W : Type} {E : External W}.
Import main Spec.

Lemma run_ret {A : Type} (a : A) (w : W) : (ret a : M W A) w = (Returned a, w).
Proof. reflexivity. Qed.

Lemma run_raise {A : Type} (e : exn) (w : W) :
  (raise e : M W A) w = (Raised e, w).
Proof. reflexivity. Qed.

Lemma run_bind {A B : Type} (m : M W A) (k : A -> M W B) (w : W) :
  (bind m k) w =
  match m w with
  | (Returned a, w') => k a w'
  | (Raised e, w') => (Raised e, w')
  end.
Proof. reflexivity. Qed.

Lemma run_catch {A : Type} (m : M W A) (h : exn -> M W A) (w : W) :
  (catch m h) w =
  match m w with
  | (Returned a, w') => (Returned a, w')
  | (Raised e, w') => h e w'
  end.
Proof. reflexivity. Qed.

Lemma for_each_cons {A S : Type} (body : S -> A -> M W S) (x : A)
    (xs : list A) (s : S) (w : W) :
  for_each body (x :: xs) s w =
  match body s x w with
  | (Returned s', w') => for_each body xs s' w'
  | (Raised e, w') => (Raised e, w')
  end.
Proof. reflexivity. Qed.

Lemma for_each_app {A S : Type} (body : S -> A -> M W S) (xs ys : list A) :
  forall (s : S) (w : W),
    for_each body (xs ++ ys) s w =
    match for_each body xs s w with
    | (Returned s', w') => for_each body ys s' w'
    | (Raised e, w') => (Raised e, w')
    end.
Proof.
  induction xs as [| x xs IH]; intros s w.
  - reflexivity.
  - rewrite <- app_comm_cons, !for_each_cons.
    destruct (body s x w) as [[s' | e] w']; [apply IH | reflexivity].
Qed.

End Runs.

(** ** The execution loop *)

Section Orchestrator.
Context {W : Type} {E : External W}.
Import main Spec.

Variable req : WorkflowExecutionRequest.

(** The three ways an iteration ends, by what the prompt fetch and the
    generation did. *)
Lemma process_field_fetch_raised st f w e w1 :
  prompts_select (f_id f) w = (Raised e, w1) ->
  process_field req st f w = (Raised e, w1).
Proof.
  intros H. unfold process_field. rewrite run_bind, H. reflexivity.
Qed.

Lemma process_field_no_prompts st f w w1 :
  prompts_select (f_id f) w = (Returned [], w1) ->
  process_field req st f w
  = (Returned (append_failed st (no_prompts_result f)), w1).
Proof.
  intros H. unfold process_field. rewrite run_bind, H. reflexivity.
Qed.

Lemma process_field_generated st f w p ps w1 text w2 :
  prompts_select (f_id f) w = (Returned (p :: ps), w1) ->
  services.execute_prompt (p_prompt_template p) (user_input req) w1
  = (Returned text, w2) ->
  process_field req st f w
  = (Returned (append_successful st (success_result f p text)), w2).
Proof.
  intros H1 H2. unfold process_field.
  rewrite run_bind, H1, run_catch, run_bind, H2. reflexivity.
Qed.

Lemma process_field_generation_failed st f w p ps w1 e w2 :
  prompts_select (f_id f) w = (Returned (p :: ps), w1) ->
  services.execute_prompt (p_prompt_template p) (user_input req) w1
  = (Raised e, w2) ->
  process_field req st f w
  = (Returned (append_failed st (error_result f p e)), w2).
Proof.
  intros H1 H2. unfold process_field.
  rewrite run_bind, H1, run_catch, run_bind, H2. reflexivity.
Qed.

(** An iteration that returns has appended one entry, for its field,
    and counted it on the side its [execution_success] says. *)
Lemma process_field_returned st f w st' w' :
  process_field req st f w = (Returned st', w') ->
  exists r,
    describes f r /\ coherent r
    /\ (prompts_select (f_id f) w = (Returned [], w') ->
        r = no_prompts_result f)
    /\ st' = (if execution_success r then append_successful st r
              else append_failed st r).
Proof.
  intros H.
  destruct (prompts_select (f_id f) w) as [[[| p ps] | e] w1] eqn:Hsel.
  - rewrite (process_field_no_prompts _ _ _ _ Hsel) in H.
    inversion H; subst. exists (no_prompts_result f).
    repeat split; cbn; try reflexivity; try discriminate.
  - destruct (services.execute_prompt (p_prompt_template p) (user_input req) w1)
      as [[text | e] w2] eqn:Hgen.
    + rewrite (process_field_generated _ _ _ _ _ _ _ _ Hsel Hgen) in H.
      inversion H; subst. exists (success_result f p text).
      repeat split; cbn; try reflexivity; try discriminate.
    + rewrite (process_field_generation_failed _ _ _ _ _ _ _ _ Hsel Hgen) in H.
      inversion H; subst. exists (error_result f p e).
      repeat split; cbn; try reflexivity; try discriminate.
  - rewrite (process_field_fetch_raised _ _ _ _ _ Hsel) in H. discriminate.
Qed.

(** Only the prompt fetch makes an iteration raise. *)
Lemma process_field_raised st f w e w' :
  process_field req st f w = (Raised e, w') ->
  prompts_select (f_id f) w = (Raised e, w').
Proof.
  intros H.
  destruct (prompts_select (f_id f) w) as [[[| p ps] | e1] w1] eqn:Hsel.
  - rewrite (process_field_no_prompts _ _ _ _ Hsel) in H. discriminate.
  - destruct (services.execute_prompt (p_prompt_template p) (user_input req) w1)
      as [[text | e2] w2] eqn:Hgen.
    + rewrite (process_field_generated _ _ _ _ _ _ _ _ Hsel Hgen) in H.
      discriminate.
    + rewrite (process_field_generation_failed _ _ _ _ _ _ _ _ Hsel Hgen) in H.
      discriminate.
  - rewrite (process_field_fetch_raised _ _ _ _ _ Hsel) in H.
    inversion H; subst. reflexivity.
Qed.

Lemma count_split (rs : list FieldExecutionResult) :
  count_successful rs + count_failed rs = length rs.
Proof.
  unfold count_successful, count_failed.
  induction rs as [| r rs IH]; cbn; [reflexivity |].
  destruct (execution_success r); cbn; lia.
Qed.

Lemma count_successful_cons r rs :
  count_successful (r :: rs)
  = (if execution_success r then 1 else 0) + count_successful rs.
Proof.
  unfold count_successful. cbn. destruct (execution_success r); reflexivity.
Qed.

Lemma count_failed_cons r rs :
  count_failed (r :: rs)
  = (if execution_success r then 0 else 1) + count_failed rs.
Proof.
  unfold count_failed. cbn. destruct (execution_success r); reflexivity.
Qed.

(** A loop that returns has appended one entry per field, in order, and
    its two counters grew by the numbers of successful and failed
    entries. *)
Lemma loop_returned fs :
  forall st w st' w',
    for_each (process_field req) fs st w = (Returned st', w') ->
    exists rs,
      l_field_results st' = (l_field_results st ++ rs)%list
      /\ Forall2 describes fs rs
      /\ Forall coherent rs
      /\ l_successful_executions st'
         = l_successful_executions st + count_successful rs
      /\ l_failed_executions st' = l_failed_executions st + count_failed rs.
Proof.
  induction fs as [| f fs IH]; intros st w st' w' H.
  - inversion H; subst. exists []. rewrite app_nil_r.
    repeat split; try constructor; cbn; lia.
  - rewrite for_each_cons in H.
    destruct (process_field req st f w) as [[st1 | e] w1] eqn:Hstep;
      [| discriminate].
    destruct (process_field_returned _ _ _ _ _ Hstep)
      as (r & Hd & Hc & _ & Hst1).
    destruct (IH _ _ _ _ H) as (rs & Hres & Hall & Hcoh & Hs & Hf).
    exists (r :: rs).
    rewrite count_successful_cons, count_failed_cons.
    subst st1. destruct (execution_success r); cbn in *;
      rewrite Hres, <- app_assoc; repeat split; auto; lia.
Qed.

(** A loop that raises stopped at a field whose prompt fetch raised, after
    the fields before it had been processed. *)
Lemma loop_raised fs :
  forall st w e w',
    for_each (process_field req) fs st w = (Raised e, w') ->
    exists pre f post st1 w1,
      fs = (pre ++ f :: post)%list
      /\ for_each (process_field req) pre st w = (Returned st1, w1)
      /\ prompts_select (f_id f) w1 = (Raised e, w').
Proof.
  induction fs as [| f fs IH]; intros st w e w' H.
  - discriminate.
  - rewrite for_each_cons in H.
    destruct (process_field req st f w) as [[st1 | e1] w1] eqn:Hstep.
    + destruct (IH _ _ _ _ H) as (pre & g & post & st2 & w2 & -> & Hpre & Hg).
      exists (f :: pre), g, post, st2, w2. repeat split; auto.
      rewrite for_each_cons, Hstep. exact Hpre.
    + inversion H; subst.
      exists [], f, fs, st, w. repeat split; auto.
      apply process_field_raised with (st := st). exact Hstep.
Qed.

(** When every field has a prompt and every generation returns, the loop
    returns the successful entries and counts them all. *)
Lemma loop_all_generated fs w outs w' :
  every_generation_succeeds req fs w outs w' ->
  forall st,
    for_each (process_field req) fs st w
    = (Returned
         (mkLocals (l_field_results st ++ success_results fs outs)%list
            (l_successful_executions st + length fs)
            (l_failed_executions st)),
       w').
Proof.
  induction 1 as [w | f fs w w1 w2 w3 p ps text outs Hsel Hgen _ IH];
    intros st.
  - cbn. rewrite app_nil_r, Nat.add_0_r. destruct st; reflexivity.
  - rewrite for_each_cons,
      (process_field_generated _ _ _ _ _ _ _ _ Hsel Hgen), IH.
    cbn. rewrite <- app_assoc.
    replace (l_successful_executions st + 1 + length fs)
      with (l_successful_executions st + S (length fs)) by lia.
    reflexivity.
Qed.

Lemma success_results_length fs w outs w' :
  every_generation_succeeds req fs w outs w' ->
  length (success_results fs outs) = length fs
  /\ map ai_response (success_results fs outs) = map snd outs
  /\ Forall (fun r => execution_success r = true /\ error_message r = None)
       (success_results fs outs).
Proof.
  induction 1 as [w | f fs w w1 w2 w3 p ps text outs _ _ _ (IH1 & IH2 & IH3)].
  - repeat split; constructor.
  - unfold success_results in *. cbn. rewrite IH1, IH2.
    repeat split. constructor; [split; reflexivity | exact IH3].
Qed.

End Orchestrator.

(** ** Workflow execution *)

Section Execution.
Context {W : Type} {E : External W}.
Import main Spec.

(** Past the two lookups, [execute_workflow] is its loop followed by the
    construction of the response, or by the outer handlers. *)
Lemma execute_workflow_run wid req w u wf wfs wa fields wb :
  uuid_UUID wid = Some u ->
  workflows_select u w = (Returned (wf :: wfs), wa) ->
  fields_select u wa = (Returned fields, wb) ->
  fields <> [] ->
  execute_workflow wid req w =
  match for_each (process_field req) fields (mkLocals [] 0 0) wb with
  | (Returned st, w') =>
      (Returned
         (mkWorkflowExecutionResponse (w_id wf) (w_name wf) (user_input req)
            (length fields) (l_successful_executions st)
            (l_failed_executions st) (l_field_results st) (utcnow w')),
       w')
  | (Raised e, w') => (Raised (escaped e), w')
  end.
Proof.
  intros Hu Hwf Hfs Hne. unfold execute_workflow, validate_uuid_format.
  rewrite run_catch, run_bind, Hu, run_ret, run_bind, Hwf, run_bind, Hfs.
  destruct fields as [| f0 fs]; [congruence |].
  cbv beta iota zeta. rewrite run_bind.
  destruct (for_each (process_field req) (f0 :: fs) (mkLocals [] 0 0) wb)
    as [[st | e] w'].
  - reflexivity.
  - destruct e; reflexivity.
Qed.

(** A returned response comes out of a completed loop. *)
Lemma execute_workflow_returned wid req w resp w' :
  execute_workflow wid req w = (Returned resp, w') ->
  exists u wf wfs wa fields wb st,
    uuid_UUID wid = Some u
    /\ workflows_select u w = (Returned (wf :: wfs), wa)
    /\ fields_select u wa = (Returned fields, wb)
    /\ fields <> []
    /\ for_each (process_field req) fields (mkLocals [] 0 0) wb
       = (Returned st, w')
    /\ resp = mkWorkflowExecutionResponse (w_id wf) (w_name wf)
                (user_input req) (length fields) (l_successful_executions st)
                (l_failed_executions st) (l_field_results st) (utcnow w').
Proof.
  intros H.
  destruct (uuid_UUID wid) as [u |] eqn:Hu.
  2:{ unfold execute_workflow, validate_uuid_format in H.
      rewrite run_catch, run_bind, Hu in H. discriminate. }
  destruct (workflows_select u w) as [[[| wf wfs] | e] wa] eqn:Hwf.
  1,3: unfold execute_workflow, validate_uuid_format in H;
       rewrite run_catch, run_bind, Hu, run_ret, run_bind, Hwf in H;
       try discriminate; destruct e; discriminate.
  destruct (fields_select u wa) as [[[| f0 fs] | e] wb] eqn:Hfs.
  1,3: unfold execute_workflow, validate_uuid_format in H;
       rewrite run_catch, run_bind, Hu, run_ret, run_bind, Hwf, run_bind, Hfs
         in H;
       try discriminate; destruct e; discriminate.
  assert (Hne : f0 :: fs <> []) by discriminate.
  rewrite (execute_workflow_run _ req _ _ _ _ _ _ _ Hu Hwf Hfs Hne) in H.
  destruct (for_each (process_field req) (f0 :: fs) (mkLocals [] 0 0) wb)
    as [[st | e] w1] eqn:Hloop; [| discriminate].
  inversion H; subst.
  exists u, wf, wfs, wa, (f0 :: fs), wb, st. repeat split; auto.
Qed.

(** The route answers what the handler returned or raised. *)
Lemma POST_workflow_execute_valid wid input req w :
  WorkflowExecutionRequest_parse input = Valid req ->
  POST_workflow_execute wid input w = respond 200 (execute_workflow wid req) w.
Proof. intros H. unfold POST_workflow_execute. rewrite H. reflexivity. Qed.

Lemma respond_escaped {A : Type} (code : Z) (m : M W A) w e w' :
  m w = (Raised (escaped e), w') ->
  exists s d,
    respond code m w = (mkResponse s (Detail d), w')
    /\ escaped e = HTTPException s d.
Proof.
  intros H. unfold respond. rewrite H.
  destruct e; cbn; eauto.
Qed.

(** C1 (amended).  Past the workflow and field lookups, a generation call
    that raises is recorded in the entry of its field and the loop goes on.
    A prompt fetch that raises is not recorded: the iteration raises the
    same exception without appending an entry, and when the loop reaches
    such a fetch the request is answered with the error the outer handlers
    make of the exception, the world being the one the fetch left, so that
    the fields after it are not visited.  The execution ends in one of two
    ways: either the response is returned with status 200, one entry per
    field in the order of the fields, and successful_executions +
    failed_executions = total_fields = length of field_results; or the
    prompt fetch of some field raised after the fields before it were
    processed. *)
Theorem C1_generation_failures_do_not_abort :
  forall wid input req w u wf wfs wa f0 fs wb,
    WorkflowExecutionRequest_parse input = Valid req ->
    uuid_UUID wid = Some u ->
    workflows_select u w = (Returned (wf :: wfs), wa) ->
    fields_select u wa = (Returned (f0 :: fs), wb) ->
    (forall st f w0 p ps w1 e w2,
        prompts_select (f_id f) w0 = (Returned (p :: ps), w1) ->
        services.execute_prompt (p_prompt_template p) (user_input req) w1
        = (Raised e, w2) ->
        process_field req st f w0
        = (Returned (append_failed st (error_result f p e)), w2))
    /\ (forall st f w0 e w1,
           prompts_select (f_id f) w0 = (Raised e, w1) ->
           process_field req st f w0 = (Raised e, w1))
    /\ (forall pre f post st1 w1 e w2,
           f0 :: fs = (pre ++ f :: post)%list ->
           for_each (process_field req) pre (mkLocals [] 0 0) wb
           = (Returned st1, w1) ->
           prompts_select (f_id f) w1 = (Raised e, w2) ->
           exists s d,
             POST_workflow_execute wid input w = (mkResponse s (Detail d), w2)
             /\ escaped e = HTTPException s d
             /\ ((forall s' d', e <> HTTPException s' d') ->
                 s = 500%Z
                 /\ d = "Unexpected error during workflow execution: "
                        ++ str_exn e))
    /\ ((exists resp w',
            POST_workflow_execute wid input w
            = (mkResponse 200 (Body resp), w')
            /\ total_fields resp = length (f0 :: fs)
            /\ length (field_results resp) = total_fields resp
            /\ successful_executions resp + failed_executions resp
               = total_fields resp
            /\ Forall2 describes (f0 :: fs) (field_results resp))
        \/ (exists pre f post st1 w1 e w2 s d,
               f0 :: fs = (pre ++ f :: post)%list
               /\ for_each (process_field req) pre (mkLocals [] 0 0) wb
                  = (Returned st1, w1)
               /\ prompts_select (f_id f) w1 = (Raised e, w2)
               /\ POST_workflow_execute wid input w
                  = (mkResponse s (Detail d), w2)
               /\ escaped e = HTTPException s d)).
Proof.
  intros wid input req w u wf wfs wa f0 fs wb Hreq Hu Hwf Hfs.
  assert (Hne : f0 :: fs <> []) by discriminate.
  pose proof (execute_workflow_run wid req w u wf wfs wa _ wb Hu Hwf Hfs Hne)
    as Hrun.
  split; [| split; [| split]].
  - intros st f w0 p ps w1 e w2 Hsel Hgen.
    exact (process_field_generation_failed req _ _ _ _ _ _ _ _ Hsel Hgen).
  - intros st f w0 e w1 Hsel.
    exact (process_field_fetch_raised req _ _ _ _ _ Hsel).
  - intros pre f post st1 w1 e w2 Hsplit Hpre Hsel.
    rewrite Hsplit, for_each_app, Hpre, for_each_cons,
      (process_field_fetch_raised req _ _ _ _ _ Hsel) in Hrun.
    rewrite (POST_workflow_execute_valid _ _ _ _ Hreq).
    destruct (respond_escaped 200 _ _ _ _ Hrun) as (s & d & Hresp & Hesc).
    exists s, d. split; [exact Hresp |]. split; [exact Hesc |].
    intros Hclass. destruct e; cbn in Hesc; inversion Hesc; subst;
      try (split; reflexivity).
    exfalso. eapply Hclass. reflexivity.
  - rewrite (POST_workflow_execute_valid _ _ _ _ Hreq).
    destruct (for_each (process_field req) (f0 :: fs) (mkLocals [] 0 0) wb)
      as [[st | e] w'] eqn:Hloop.
    + left.
      destruct (loop_returned req _ _ _ _ _ Hloop)
        as (rs & Hres & Hall & _ & Hs & Hf).
      cbn [l_field_results l_successful_executions l_failed_executions app]
        in Hres, Hs, Hf.
      eexists. exists w'. unfold respond. rewrite Hrun.
      split; [reflexivity |].
      cbn [total_fields field_results successful_executions failed_executions].
      rewrite Hres, Hs, Hf.
      pose proof (Forall2_length Hall) as Hlen.
      pose proof (count_split rs) as Hcount.
      repeat split; auto; lia.
    + right.
      destruct (loop_raised req _ _ _ _ _ Hloop)
        as (pre & f & post & st1 & w1 & Hsplit & Hpre & Hsel).
      destruct (respond_escaped 200 _ _ _ _ Hrun) as (s & d & Hresp & Hesc).
      exists pre, f, post, st1, w1, e, w', s, d. auto.
Qed.

(** C2.  A workflow with N >= 1 fields, each with at least one prompt, each
    generation returning: the response has status 200, total_fields =
    successful_executions = N, failed_executions = 0, and N entries, each
    marked successful, without error message, with the generated text as
    ai_response. *)
Theorem C2_all_fields_succeed :
  forall wid input req w u wf wfs wa f0 fs wb outs w',
    WorkflowExecutionRequest_parse input = Valid req ->
    uuid_UUID wid = Some u ->
    workflows_select u w = (Returned (wf :: wfs), wa) ->
    fields_select u wa = (Returned (f0 :: fs), wb) ->
    every_generation_succeeds req (f0 :: fs) wb outs w' ->
    exists resp,
      POST_workflow_execute wid input w = (mkResponse 200 (Body resp), w')
      /\ total_fields resp = length (f0 :: fs)
      /\ successful_executions resp = length (f0 :: fs)
      /\ failed_executions resp = 0
      /\ length (field_results resp) = length (f0 :: fs)
      /\ field_results resp = success_results (f0 :: fs) outs
      /\ map ai_response (field_results resp) = map snd outs
      /\ Forall (fun r => execution_success r = true /\ error_message r = None)
           (field_results resp).
Proof.
  intros wid input req w u wf wfs wa f0 fs wb outs w' Hreq Hu Hwf Hfs Hall.
  assert (Hne : f0 :: fs <> []) by discriminate.
  pose proof (execute_workflow_run wid req w u wf wfs wa _ wb Hu Hwf Hfs Hne)
    as Hrun.
  rewrite (loop_all_generated req _ _ _ _ Hall) in Hrun.
  destruct (success_results_length req _ _ _ _ Hall) as (Hlen & Hmap & Hok).
  eexists. rewrite (POST_workflow_execute_valid _ _ _ _ Hreq).
  unfold respond. rewrite Hrun. split; [reflexivity |].
  cbn [total_fields successful_executions failed_executions field_results
       l_field_results l_successful_executions l_failed_executions app].
  repeat split; auto.
Qed.



(** C10.  In every response of a workflow execution, each entry is marked
    successful exactly when it has no error message, and a failed entry
    has the empty string as ai_response; the entry appended for a field
    without prompts is a failed one whose prompt_template is empty too. *)
Theorem C10_entries_are_coherent :
  forall wid req w resp w',
    execute_workflow wid req w = (Returned resp, w') ->
    Forall coherent (field_results resp)
    /\ (forall st f w0 w1,
           prompts_select (f_id f) w0 = (Returned [], w1) ->
           exists r,
             process_field req st f w0
             = (Returned (append_failed st r), w1)
             /\ execution_success r = false
             /\ ai_response r = ""
             /\ prompt_template r = "").
Proof.
  intros wid req w resp w' H. split.
  - destruct (execute_workflow_returned _ _ _ _ _ H)
      as (u & wf & wfs & wa & fields & wb & st & _ & _ & _ & _ & Hloop & ->).
    destruct (loop_returned req _ _ _ _ _ Hloop) as (rs & Hres & _ & Hcoh & _).
    cbn [field_results]. rewrite Hres. exact Hcoh.
  - intros st f w0 w1 Hsel. exists (no_prompts_result f).
    rewrite (process_field_no_prompts req _ _ _ _ Hsel).
    repeat split; reflexivity.
Qed.

End Execution.

(** ** The prompt executor *)

Section Executor.
Context {W : Type} {E : External W}.
Import services.

Lemma execute_prompt_without_key t u w :
  api_key_missing w = true ->
  execute_prompt t u w
  = (Raised (ValueError "OPENAI_API_KEY environment variable is required"), w).
Proof.
  intros H. unfold execute_prompt, read. rewrite run_bind, H. reflexivity.
Qed.

Lemma execute_prompt_with_key t u w :
  api_key_missing w = false ->
  execute_prompt t u w =
  match chat_completions_create (completion_request t u) w with
  | (Returned response, w') =>
      match choices response with
      | Some content :: _ => (Returned (Py.strip content), w')
      | None :: _ =>
          (Raised
             (OtherException
                ("Unexpected error during prompt execution: "
                 ++ "'NoneType' object has no attribute 'strip'")),
           w')
      | [] =>
          (Raised
             (OtherException
                ("Unexpected error during prompt execution: "
                 ++ "list index out of range")),
           w')
      end
  | (Raised (OpenAIAPIError m), w') =>
      (Raised
         (OtherException
            "APIError.__init__() missing 1 required positional argument: 'request'"),
       w')
  | (Raised e, w') =>
      (Raised
         (OtherException
            ("Unexpected error during prompt execution: " ++ str_exn e)),
       w')
  end.
Proof.
  intros H. unfold execute_prompt, read.
  rewrite run_bind, H, run_catch, run_bind.
  destruct (chat_completions_create (completion_request t u) w)
    as [[response | e] w'].
  - unfold first_choice_text.
    destruct (choices response) as [| [content |] rest]; reflexivity.
  - destruct e; reflexivity.
Qed.

(** C7 (amended).  For every prompt template and user input, when the API
    key is set, the executor makes exactly one generation request: the
    world it leaves is the world that request leaves.  The request carries
    the fixed system instruction and, as user message, the template, a
    blank line and "User Input: " followed by the input, with
    max_tokens 1000, temperature 0.7 and a timeout of 30 seconds.  When the
    request returns a text, the executor returns it stripped; when the
    request raises, the executor raises. *)
Theorem C7_one_request_when_key_is_set :
  forall t u w,
    api_key_missing w = false ->
    let request := completion_request t u in
    cr_messages request
    = [("system",
        "You are a helpful AI assistant. Follow the instructions in the prompt carefully.");
       ("user", t ++ Py.nl ++ Py.nl ++ "User Input: " ++ u)]
    /\ cr_max_tokens request = 1000%Z
    /\ cr_temperature request = (7 # 10)%Q
    /\ cr_timeout request = (30 # 1)%Q
    /\ snd (execute_prompt t u w) = snd (chat_completions_create request w)
    /\ (forall text rest w',
           chat_completions_create request w
           = (Returned (mkChatCompletion (Some text :: rest)), w') ->
           execute_prompt t u w = (Returned (Py.strip text), w'))
    /\ (forall e w',
           chat_completions_create request w = (Raised e, w') ->
           exists e', execute_prompt t u w = (Raised e', w')).
Proof.
  intros t u w Hkey request.
  pose proof (execute_prompt_with_key t u w Hkey) as Hrun.
  fold request in Hrun.
  repeat split; try reflexivity.
  - rewrite Hrun.
    destruct (chat_completions_create request w) as [[response | e] w'].
    + destruct (choices response) as [| [content |] rest]; reflexivity.
    + destruct e; reflexivity.
  - intros text rest w' Hchat. rewrite Hrun, Hchat. reflexivity.
  - intros e w' Hchat. rewrite Hrun, Hchat. destruct e; eauto.
Qed.

End Executor.

(** ** Fetching and creating *)

Section Persistence.
Context {W : Type} {E : External W}.
Import main.


(** C9.  When the insert of a workflow raises an exception whose message,
    in lower case, contains "duplicate key value", the creation is
    answered 409 and not 500. *)
Theorem C9_duplicate_name_is_conflict :
  forall name workflow_data w e w',
    WorkflowCreate_parse name = Valid workflow_data ->
    workflows_insert (wc_name workflow_data) w = (Raised e, w') ->
    Py.contains "duplicate key value" (Py.lower (str_exn e)) = true ->
    POST_workflows name w
    = (mkResponse 409 (Detail "A workflow with this name already exists"), w').
Proof.
  intros name workflow_data w e w' Hparse Hins Hdup.
  unfold POST_workflows. rewrite Hparse.
  unfold respond, create_workflow.
  rewrite run_catch, run_bind, Hins. unfold is_duplicate_key.
  rewrite Hdup. reflexivity.
Qed.

(** C5.  In [create_field_with_prompt] the prompt's field_id is compared
    with the identifier of the field row inserted by the same request:
    when they differ the request is answered 400, and the world it leaves
    is the one the field insert left, no delete or other store call having
    followed. *)
Theorem C5_field_id_mismatch_keeps_field :
  forall wid field_data prompt_data w u id ids wa field rows wb,
    uuid_UUID wid = Some u ->
    workflows_select_id u w = (Returned (id :: ids), wa) ->
    fc_workflow_id field_data = u ->
    fields_insert u (fc_name field_data) (fc_data_type field_data) wa
    = (Returned (field :: rows), wb) ->
    pc_field_id prompt_data <> f_id field ->
    create_field_with_prompt wid field_data prompt_data w
    = (Raised (HTTPException 400
                 "Prompt field_id must match the created field ID"), wb)
    /\ respond 201 (create_field_with_prompt wid field_data prompt_data) w
       = (mkResponse 400
            (Detail "Prompt field_id must match the created field ID"), wb).
Proof.
  intros wid field_data prompt_data w u id ids wa field rows wb
    Hu Hwf Hsame Hins Hdiff.
  assert (Hrun :
    create_field_with_prompt wid field_data prompt_data w
    = (Raised (HTTPException 400
                 "Prompt field_id must match the created field ID"), wb)).
  { unfold create_field_with_prompt, validate_uuid_format.
    rewrite run_catch, run_bind, Hu, run_ret, run_bind, Hwf.
    rewrite Hsame, N.eqb_refl. cbv beta iota zeta. unfold negb at 1.
    rewrite run_bind, Hins.
    apply N.eqb_neq in Hdiff. rewrite Hdiff. reflexivity. }
  split; [exact Hrun |]. unfold respond. rewrite Hrun. reflexivity.
Qed.

(** When the prompt insert raises, the outer handlers answer and the world
    is left as the insert left it: the delete of line 203 is not reached. *)
Lemma prompt_insert_raising_skips_delete
    wid field_data prompt_data w u id ids wa field rows wb e wc :
  uuid_UUID wid = Some u ->
  workflows_select_id u w = (Returned (id :: ids), wa) ->
  fc_workflow_id field_data = u ->
  fields_insert u (fc_name field_data) (fc_data_type field_data) wa
  = (Returned (field :: rows), wb) ->
  pc_field_id prompt_data = f_id field ->
  prompts_insert (f_id field) (pc_prompt_template prompt_data) wb
  = (Raised e, wc) ->
  exists e',
    create_field_with_prompt wid field_data prompt_data w = (Raised e', wc).
Proof.
  intros Hu Hwf Hsame Hins Hid Hprompt.
  unfold create_field_with_prompt, validate_uuid_format.
  rewrite run_catch, run_bind, Hu, run_ret, run_bind, Hwf.
  rewrite Hsame, N.eqb_refl. cbv beta iota zeta. unfold negb at 1.
  rewrite run_bind, Hins, Hid, N.eqb_refl. cbv beta iota zeta.
  unfold negb at 1. rewrite run_bind, Hprompt.
  unfold except_http_reraise.
  destruct e; try (destruct (is_duplicate_key _));
    rewrite run_raise; eauto.
Qed.

Lemma str_in_spec (x : string) (xs : list string) :
  Py.str_in x xs = true <-> In x xs.
Proof.
  unfold Py.str_in. rewrite existsb_exists. split.
  - intros (y & Hy & Heq). apply String.eqb_eq in Heq. subst. exact Hy.
  - intros H. exists x. split; [exact H | apply String.eqb_refl].
Qed.

(** C6 (amended).  A field creation request whose data_type is outside
    the enumeration does not validate: the validator raises, the request is
    answered 422 with the validator's message among the errors, the handler
    is not called and the world, with its tables, is left as it was. *)
Theorem C6_unknown_data_type_is_rejected :
  forall wid field_workflow_id field_name field_data_type prompt_field_id
         prompt_template w,
    ~ In field_data_type
        ["text"; "number"; "boolean"; "date"; "email"; "url"; "json"] ->
    FieldCreate_validate_data_type field_data_type
    = Fail "Data type must be one of: text, number, boolean, date, email, url, json"
    /\ exists errors,
        POST_workflow_fields wid field_workflow_id field_name field_data_type
          prompt_field_id prompt_template w
        = (mkResponse 422 (RequestValidationErrors errors), w)
        /\ In "Data type must be one of: text, number, boolean, date, email, url, json"
             errors.
Proof.
  intros wid fw fname dt pf tmpl w Hout.
  assert (Hin : Py.str_in dt valid_types = false).
  { destruct (Py.str_in dt valid_types) eqn:H; [| reflexivity].
    apply str_in_spec in H. contradiction. }
  assert (Hval : FieldCreate_validate_data_type dt
                 = Fail "Data type must be one of: text, number, boolean, date, email, url, json").
  { unfold FieldCreate_validate_data_type. rewrite Hin. reflexivity. }
  split; [exact Hval |].
  unfold POST_workflow_fields, FieldCreate_parse. rewrite Hval.
  destruct (min_length_1 FieldCreate_validate_name fname) as [n | msg];
    destruct (PromptCreate_parse pf tmpl) as [pd | errs];
    eexists; (split; [reflexivity |]); cbn; auto.
Qed.

End Persistence.

(** ** Concrete runs *)

Section Concrete.
Import main Spec Mem.

Example strip_example : Py.strip "  two words  " = "two words".
Proof. reflexivity. Qed.

Example parse_uuid_example : parse_uuid intake_id = Some 1%N.
Proof. reflexivity. Qed.

Example parse_uuid_rejects : parse_uuid "not-a-uuid" = None.
Proof. reflexivity. Qed.

(** Two runs.  In the first the generation of the third field raises and
    the response still comes, with the failure in the entry of that field;
    the text recorded for an API error is the one of the [TypeError] the
    re-raise in [execute_prompt] ends in.  In the second the prompt fetch
    of the first field raises and the request is answered 500. *)
Lemma C1_witness :
  (exists resp w',
      POST_workflow_execute intake_id "hello" second_generation_fails
      = (mkResponse 200 (Body resp), w')
      /\ map execution_success (field_results resp) = [true; false; false]
      /\ map error_message (field_results resp)
         = [None; Some "No prompts found for this field";
            Some "APIError.__init__() missing 1 required positional argument: 'request'"]
      /\ successful_executions resp + failed_executions resp
         = total_fields resp)
  /\ fst (POST_workflow_execute intake_id "hello" prompt_fetch_down)
     = mkResponse 500
         (Detail "Unexpected error during workflow execution: connection reset").
Proof.
  split.
  - destruct (C1_generation_failures_do_not_abort (E := external)
                intake_id "hello" (mkWorkflowExecutionRequest "hello")
                second_generation_fails 1%N intake_row []
                second_generation_fails summary_field [notes_field; tags_field]
                second_generation_fails eq_refl eq_refl eq_refl eq_refl)
      as (_ & _ & _ & [(resp & w' & Hpost & _ & _ & Hsum & _)
                      | (pre & f & post & st1 & w1 & e & w2 & s & d
                         & _ & _ & _ & Hpost & _)]).
    + exists resp, w'. split; [exact Hpost |].
      vm_compute in Hpost. inversion Hpost; subst.
      repeat split; reflexivity.
    + vm_compute in Hpost. discriminate Hpost.
  - destruct (C1_generation_failures_do_not_abort (E := external)
                intake_id "hello" (mkWorkflowExecutionRequest "hello")
                prompt_fetch_down 1%N intake_row []
                (snd (@workflows_select World external 1%N prompt_fetch_down))
                summary_field [notes_field; tags_field]
                (snd (@fields_select World external 1%N
                        (snd (@workflows_select World external 1%N
                                prompt_fetch_down))))
                ltac:(vm_compute; reflexivity) ltac:(vm_compute; reflexivity)
                ltac:(vm_compute; reflexivity) ltac:(vm_compute; reflexivity))
      as (_ & _ & Habort & _).
    destruct (Habort [] summary_field [notes_field; tags_field]
                (mkLocals [] 0 0)
                (snd (@fields_select World external 1%N
                        (snd (@workflows_select World external 1%N
                                prompt_fetch_down))))
                (OtherException "connection reset")
                (snd (POST_workflow_execute (E := external) intake_id "hello"
                        prompt_fetch_down))
                ltac:(reflexivity) ltac:(reflexivity)
                ltac:(vm_compute; reflexivity))
      as (s & d & Hpost & _ & Hstore).
    destruct Hstore as (-> & ->); [intros s' d'; discriminate |].
    rewrite Hpost. reflexivity.
Defined.

(** C1 as stated fails: both lookups pass, the prompt fetch of the first
    field raises, and the request is answered 500, not 200. *)
Lemma C1_counterexample :
  WorkflowExecutionRequest_parse "hello"
  = Valid (mkWorkflowExecutionRequest "hello")
  /\ (exists wa wb,
         workflows_select 1%N prompt_fetch_down = (Returned [intake_row], wa)
         /\ fields_select 1%N wa
            = (Returned [summary_field; notes_field; tags_field], wb)
         /\ fst (prompts_select (f_id summary_field) wb)
            = Raised (OtherException "connection reset"))
  /\ fst (POST_workflow_execute intake_id "hello" prompt_fetch_down)
     = mkResponse 500
         (Detail "Unexpected error during workflow execution: connection reset")
  /\ ~ (exists resp w',
           POST_workflow_execute intake_id "hello" prompt_fetch_down
           = (mkResponse 200 (Body resp), w')).
Proof.
  split; [reflexivity |]. split.
  - eexists. eexists. repeat split; reflexivity.
  - split; [reflexivity |].
    intros (resp & w' & H). vm_compute in H. discriminate H.
Qed.

Lemma C2_witness :
  exists resp w',
    POST_workflow_execute intake_id "hello" two_fields
    = (mkResponse 200 (Body resp), w')
    /\ total_fields resp = 2
    /\ successful_executions resp = 2
    /\ failed_executions resp = 0
    /\ map ai_response (field_results resp) = ["A summary."; "[]"].
Proof.
  assert (Hall : exists w',
    every_generation_succeeds (E := external)
      (mkWorkflowExecutionRequest "hello") [summary_field; tags_field]
      two_fields [(summary_prompt, "A summary."); (tags_prompt, "[]")] w').
  { eexists.
    eapply egs_cons; [reflexivity | reflexivity |].
    eapply egs_cons; [reflexivity | reflexivity |].
    apply egs_nil. }
  destruct Hall as (w' & Hall).
  destruct (C2_all_fields_succeed (E := external)
              intake_id "hello" (mkWorkflowExecutionRequest "hello")
              two_fields 1%N intake_row [] two_fields summary_field
              [tags_field] two_fields _ w' eq_refl eq_refl eq_refl eq_refl Hall)
    as (resp & Hpost & Htotal & Hsucc & Hfailed & _ & _ & Htexts & _).
  exists resp, w'. repeat split; assumption.
Defined.


Lemma C10_witness :
  exists resp w',
    execute_workflow intake_id (mkWorkflowExecutionRequest "hello")
      second_generation_fails
    = (Returned resp, w')
    /\ length (field_results resp) = 3
    /\ Forall coherent (field_results resp).
Proof.
  assert (H : exists resp w',
    execute_workflow intake_id (mkWorkflowExecutionRequest "hello")
      second_generation_fails
    = (Returned resp, w')) by (eexists; eexists; vm_compute; reflexivity).
  destruct H as (resp & w' & H).
  exists resp, w'. split; [exact H |]. split.
  - vm_compute in H. inversion H; subst. reflexivity.
  - exact (proj1 (C10_entries_are_coherent (E := external) _ _ _ _ _ H)).
Defined.

Lemma C7_witness :
  exists w',
    services.execute_prompt "Summarise" "hello" one_answer
    = (Returned "Hi there", w')
    /\ sent one_answer = []
    /\ sent w' = [services.completion_request "Summarise" "hello"].
Proof.
  destruct (C7_one_request_when_key_is_set (E := external)
              "Summarise" "hello" one_answer eq_refl)
    as (_ & _ & _ & _ & _ & Hok & _).
  eexists. split; [apply (Hok "  Hi there  " []); reflexivity |].
  split; reflexivity.
Defined.

(** C7 as stated fails where the API key is the empty string: the executor
    raises, and the log of requests is still empty afterwards although the
    API had an answer ready. *)
Lemma C7_counterexample :
  fst (services.execute_prompt "Summarise" "hello" empty_key)
  = Raised (ValueError "OPENAI_API_KEY environment variable is required")
  /\ sent (snd (services.execute_prompt "Summarise" "hello" empty_key)) = []
  /\ completions empty_key = [answer "Hi"].
Proof. repeat split; reflexivity. Qed.


Lemma C9_witness :
  POST_workflows " intake " one_workflow
  = (mkResponse 409 (Detail "A workflow with this name already exists"),
     one_workflow).
Proof.
  apply (C9_duplicate_name_is_conflict (E := external) " intake "
           (mkWorkflowCreate "intake") one_workflow
           (OtherException
              "duplicate key value violates unique constraint workflows_name_key"));
    reflexivity.
Defined.

Lemma C5_witness :
  exists w',
    respond 201
      (create_field_with_prompt intake_id (mkFieldCreate 1%N "title" "text")
         (mkPromptCreate 9%N "Summarise"))
      one_workflow
    = (mkResponse 400
         (Detail "Prompt field_id must match the created field ID"), w')
    /\ map f_name (fields w') = ["title"]
    /\ prompts w' = [].
Proof.
  eexists. split.
  - apply (C5_field_id_mismatch_keeps_field (E := external) intake_id
             (mkFieldCreate 1%N "title" "text") (mkPromptCreate 9%N "Summarise")
             one_workflow 1%N 1%N [] one_workflow
             (mkFieldRow 2%N 1%N "title" "text" 1700000100%Z) []);
      [reflexivity | reflexivity | reflexivity | reflexivity | discriminate].
  - split; reflexivity.
Defined.

Lemma C6_witness :
  POST_workflow_fields intake_id 1%N "title" "integer" 2%N "Summarise"
    one_workflow
  = (mkResponse 422
       (RequestValidationErrors
          ["Data type must be one of: text, number, boolean, date, email, url, json"]),
     one_workflow).
Proof.
  destruct (C6_unknown_data_type_is_rejected (E := external)
              intake_id 1%N "title" "integer" 2%N "Summarise" one_workflow)
    as (_ & errors & Hpost & _).
  - cbn. intuition discriminate.
  - rewrite Hpost. vm_compute in Hpost. inversion Hpost; subst. reflexivity.
Defined.

(** C6 as stated fails: the data type "integer" is outside the
    enumeration and the request is answered 422, not 400. *)
Lemma C6_counterexample :
  ~ In "integer" valid_types
  /\ status (fst (POST_workflow_fields intake_id 1%N "title" "integer" 2%N
                   "Summarise" one_workflow)) = 422%Z
  /\ status (fst (POST_workflow_fields intake_id 1%N "title" "integer" 2%N
                   "Summarise" one_workflow)) <> 400%Z.
Proof.
  split; [cbn; intuition discriminate |].
  split; [reflexivity | vm_compute; discriminate].
Qed.

(** C4 fails on the code.  The workflow exists, the field insert succeeds
    and the prompt's field_id is the identifier the store gave the field;
    the prompt insert raises.  The request is answered 500, no delete is
    made, and a fetch of the workflow made next shows the field, without
    prompts. *)
Theorem C4_orphan_when_prompt_insert_raises :
  exists w' fetched w'',
    POST_workflow_fields intake_id 1%N "title" "text" 2%N "Summarise"
      prompt_insert_down
    = (mkResponse 500 (Detail "Database error: connection reset"), w')
    /\ fields w' = [mkFieldRow 2%N 1%N "title" "text" 1700000100%Z]
    /\ prompts w' = []
    /\ GET_workflow intake_id w' = (mkResponse 200 (Body fetched), w'')
    /\ wcp_fields fetched
       = [mkFieldWithPrompts 2%N 1%N "title" "text" 1700000100%Z []].
Proof.
  eexists. eexists. eexists.
  split; [reflexivity |]. repeat split; reflexivity.
Qed.

(** The sibling path: when the prompt insert comes back without rows the
    field is deleted again, and the fetch shows no field. *)
Example compensating_delete_when_no_rows :
  exists w' fetched w'',
    POST_workflow_fields intake_id 1%N "title" "text" 2%N "Summarise"
      prompt_insert_empty
    = (mkResponse 500 (Detail "Failed to create prompt"), w')
    /\ fields w' = []
    /\ GET_workflow intake_id w' = (mkResponse 200 (Body fetched), w'')
    /\ wcp_fields fetched = [].
Proof.
  eexists. eexists. eexists.
  split; [reflexivity |]. repeat split; reflexivity.
Qed.

End Concrete.

(** ** Request validation *)

Section Validation.
Import Props.

Lemma lstrip_head s c r : Py.lstrip s = String c r -> Py.isspace c = false.
Proof.
  induction s as [| d s IH]; cbn; [discriminate |].
  destruct (Py.isspace d) eqn:Hd; [exact IH |].
  intros H. inversion H; subst. exact Hd.
Qed.

Lemma rstrip_head c t :
  Py.isspace c = false -> exists r, Py.rstrip (String c t) = String c r.
Proof.
  intros Hc. cbn. destruct (Py.rstrip t); rewrite ?Hc; eauto.
Qed.

Lemma rstrip_idem t : Py.rstrip (Py.rstrip t) = Py.rstrip t.
Proof.
  induction t as [| c t IH]; [reflexivity |]. cbn.
  destruct (Py.rstrip t) as [| d r] eqn:Hr.
  - destruct (Py.isspace c) eqn:Hc; [reflexivity |]. cbn. rewrite Hc. reflexivity.
  - change (Py.rstrip (String c (String d r)))
      with (match Py.rstrip (String d r) with
            | EmptyString =>
                if Py.isspace c then EmptyString else String c EmptyString
            | r' => String c r'
            end).
    rewrite IH. reflexivity.
Qed.

(** Stripping twice is stripping once. *)
Lemma strip_idem s : Py.strip (Py.strip s) = Py.strip s.
Proof.
  unfold Py.strip. destruct (Py.lstrip s) as [| c t] eqn:Hl; [reflexivity |].
  destruct (rstrip_head c t (lstrip_head _ _ _ Hl)) as (r & Hr).
  rewrite Hr. cbn [Py.lstrip]. rewrite (lstrip_head _ _ _ Hl), <- Hr.
  apply rstrip_idem.
Qed.

Lemma rstrip_empty t : Py.rstrip t = "" <-> all_space t = true.
Proof.
  induction t as [| c t IH]; cbn; [tauto |].
  destruct (Py.rstrip t) as [| d r].
  - destruct (Py.isspace c); cbn.
    + split; intros _; [apply IH |]; reflexivity.
    + split; discriminate.
  - split; [discriminate |]. intros H. apply andb_true_iff in H.
    destruct H as [_ H]. apply IH in H. discriminate.
Qed.

Lemma lstrip_all_space s : all_space (Py.lstrip s) = all_space s.
Proof.
  induction s as [| c s IH]; [reflexivity |]. cbn.
  destruct (Py.isspace c) eqn:Hc; [exact IH |]. cbn. rewrite Hc. reflexivity.
Qed.

(** A string strips to nothing exactly when it is white space only. *)
Lemma strip_empty s : Py.strip s = "" <-> all_space s = true.
Proof.
  unfold Py.strip. rewrite rstrip_empty, lstrip_all_space. tauto.
Qed.

Lemma strip_eqb_empty s : String.eqb (Py.strip s) "" = all_space s.
Proof.
  destruct (all_space s) eqn:H.
  - apply String.eqb_eq, strip_empty, H.
  - apply String.eqb_neq. intros Hs. apply strip_empty in Hs. congruence.
Qed.

Lemma all_space_short s : (String.length s <? 1)%nat = true -> all_space s = true.
Proof. destruct s; [reflexivity | discriminate]. Qed.

(** The attribute check made of [min_length=1] and a stripping validator
    hands on the stripped text, or fails on white space. *)
Lemma min_length_strip msg s :
  (all_space s = false
   /\ min_length_1 (strip_non_empty msg) s = Pass (Py.strip s))
  \/ (all_space s = true
      /\ exists m, min_length_1 (strip_non_empty msg) s = Fail m).
Proof.
  unfold min_length_1, strip_non_empty. rewrite strip_eqb_empty.
  destruct (String.length s <? 1)%nat eqn:Hlen.
  - right. split; [apply all_space_short, Hlen | eauto].
  - destruct (all_space s); [right | left]; eauto.
Qed.

End Validation.

Section ValidatedModels.
Context {W : Type} {E : External W}.
Import main Props.

Lemma strip_head s c r : Py.strip s = String c r -> Py.isspace c = false.
Proof.
  unfold Py.strip. destruct (Py.lstrip s) as [| d t] eqn:Hl; [discriminate |].
  pose proof (lstrip_head _ _ _ Hl) as Hd.
  destruct (rstrip_head d t Hd) as (r' & Hr). rewrite Hr.
  intros H. inversion H; subst. exact Hd.
Qed.

Lemma strip_not_blank s : all_space s = false -> all_space (Py.strip s) = false.
Proof.
  intros H. destruct (all_space (Py.strip s)) eqn:Hs; [| reflexivity].
  apply strip_empty in Hs. rewrite strip_idem in Hs.
  apply strip_empty in Hs. congruence.
Qed.

(** A workflow name that validates is handed to the handler stripped: it
    is not empty, does not begin with white space, stripping it again
    changes nothing, and submitting the stored name again validates to the
    same model. *)
Theorem workflow_name_is_normalised :
  forall name workflow_data,
    WorkflowCreate_parse name = Valid workflow_data ->
    wc_name workflow_data = Py.strip name
    /\ wc_name workflow_data <> ""
    /\ (forall c rest,
           wc_name workflow_data = String c rest -> Py.isspace c = false)
    /\ Py.strip (wc_name workflow_data) = wc_name workflow_data
    /\ WorkflowCreate_parse (wc_name workflow_data) = Valid workflow_data.
Proof.
  intros name wd H. unfold WorkflowCreate_parse, WorkflowCreate_validate_name in *.
  destruct (min_length_strip "Workflow name cannot be empty" name)
    as [(Hns & Hpass) | (_ & m & Hfail)].
  2:{ rewrite Hfail in H. discriminate. }
  rewrite Hpass in H. inversion H; subst. cbn [wc_name].
  split; [reflexivity |]. split.
  { intros Hs. apply strip_empty in Hs. congruence. }
  split; [intros c rest Hc; exact (strip_head _ _ _ Hc) |].
  split; [apply strip_idem |].
  destruct (min_length_strip "Workflow name cannot be empty" (Py.strip name))
    as [(_ & Hpass2) | (Hblank & _)].
  - rewrite Hpass2, strip_idem. reflexivity.
  - rewrite (strip_not_blank _ Hns) in Hblank. discriminate.
Qed.

(** A field creation body validates exactly when its name is not blank and
    its data_type is, letter for letter, one of the seven types; the model
    then carries the stripped name and the workflow_id and data_type as
    sent. *)
Theorem field_body_validates_iff :
  forall workflow_id name data_type field_data,
    FieldCreate_parse workflow_id name data_type = Valid field_data
    <-> (all_space name = false
         /\ In data_type
              ["text"; "number"; "boolean"; "date"; "email"; "url"; "json"]
         /\ field_data = mkFieldCreate workflow_id (Py.strip name) data_type).
Proof.
  intros wid name dt fd. unfold FieldCreate_parse, FieldCreate_validate_name.
  unfold FieldCreate_validate_data_type.
  destruct (min_length_strip "Field name cannot be empty" name)
    as [(Hns & Hpass) | (Hblank & m & Hfail)].
  - rewrite Hpass. destruct (Py.str_in dt valid_types) eqn:Hin; cbn [negb].
    + apply str_in_spec in Hin. split.
      * intros H. inversion H; subst. auto.
      * intros (_ & _ & ->). reflexivity.
    + split; [discriminate |]. intros (_ & Hdt & _).
      apply str_in_spec in Hdt. fold valid_types in Hdt. congruence.
  - rewrite Hfail. split.
    + destruct (Py.str_in dt valid_types); discriminate.
    + intros (Hns & _). congruence.
Qed.

(** A blank text, empty or white space only, is refused on every route
    that takes one, with status 422 and before anything else happens: as
    workflow name, as field name, as prompt template and as user input. *)
Theorem blank_text_is_unprocessable :
  forall text w,
    all_space text = true ->
    (exists errors,
        POST_workflows text w
        = (mkResponse 422 (RequestValidationErrors errors), w))
    /\ (forall wid field_workflow_id data_type prompt_field_id template,
           exists errors,
             POST_workflow_fields wid field_workflow_id text data_type
               prompt_field_id template w
             = (mkResponse 422 (RequestValidationErrors errors), w))
    /\ (forall wid field_workflow_id name data_type prompt_field_id,
           exists errors,
             POST_workflow_fields wid field_workflow_id name data_type
               prompt_field_id text w
             = (mkResponse 422 (RequestValidationErrors errors), w))
    /\ (forall wid,
           exists errors,
             POST_workflow_execute wid text w
             = (mkResponse 422 (RequestValidationErrors errors), w)).
Proof.
  intros text w Hblank. repeat split.
  - unfold POST_workflows, WorkflowCreate_parse, WorkflowCreate_validate_name.
    destruct (min_length_strip "Workflow name cannot be empty" text)
      as [(Hns & _) | (_ & m & ->)]; [congruence | eexists; reflexivity].
  - intros wid fw dt pf tmpl.
    unfold POST_workflow_fields, FieldCreate_parse, FieldCreate_validate_name.
    destruct (min_length_strip "Field name cannot be empty" text)
      as [(Hns & _) | (_ & m & ->)]; [congruence |].
    destruct (FieldCreate_validate_data_type dt);
      destruct (PromptCreate_parse pf tmpl); eexists; reflexivity.
  - intros wid fw name dt pf.
    unfold POST_workflow_fields, PromptCreate_parse,
      PromptCreate_validate_prompt_template.
    destruct (min_length_strip "Prompt template cannot be empty" text)
      as [(Hns & _) | (_ & m & ->)]; [congruence |].
    destruct (FieldCreate_parse fw name dt); eexists; reflexivity.
  - intros wid.
    unfold POST_workflow_execute, WorkflowExecutionRequest_parse,
      WorkflowExecutionRequest_validate_user_input.
    destruct (min_length_strip "User input cannot be empty" text)
      as [(Hns & _) | (_ & m & ->)]; [congruence | eexists; reflexivity].
Qed.

Lemma optional_strip_agrees msg s :
  optional_min_length_1 (optional_strip_non_empty msg) (Some s)
  = match min_length_1 (strip_non_empty msg) s with
    | Pass n => Pass (Some n)
    | Fail m => Fail m
    end.
Proof.
  unfold optional_min_length_1, min_length_1, optional_strip_non_empty,
    strip_non_empty.
  destruct (String.length s <? 1)%nat eqn:Hlen; [reflexivity |].
  destruct (String.eqb (Py.strip s) ""); [reflexivity |].
  destruct s; [discriminate | reflexivity].
Qed.

Lemma optional_strip_when_present msg v :
  optional_min_length_1 (optional_strip_non_empty msg) v
  = when_present (min_length_1 (strip_non_empty msg)) v.
Proof.
  destruct v as [s |]; [| reflexivity].
  rewrite optional_strip_agrees. reflexivity.
Qed.

Lemma optional_data_type_when_present v :
  FieldUpdate_validate_data_type v
  = when_present FieldCreate_validate_data_type v.
Proof.
  destruct v as [s |]; [| reflexivity].
  unfold FieldUpdate_validate_data_type, when_present,
    FieldCreate_validate_data_type.
  destruct (negb (Py.str_in s valid_types)); reflexivity.
Qed.

(** The update models check each attribute on its own, whatever the other
    attributes are: an absent value passes unchanged, a present one goes
    through the check of the same attribute of the create model, with the
    same normalisation and the same message; the errors of the attributes
    are collected.  In particular a body whose values are all present
    validates as the create model does, and an empty body validates. *)
Theorem update_models_follow_create_models :
  (forall name,
      WorkflowUpdate_parse name
      = match when_present (min_length_1 WorkflowCreate_validate_name) name with
        | Pass n => Valid (mkWorkflowUpdate n)
        | Fail msg => ValidationError [msg]
        end)
  /\ (forall template,
         PromptUpdate_parse template
         = match when_present
                   (min_length_1 PromptCreate_validate_prompt_template) template
           with
           | Pass t => Valid (mkPromptUpdate t)
           | Fail msg => ValidationError [msg]
           end)
  /\ (forall name data_type,
         FieldUpdate_parse name data_type
         = match when_present (min_length_1 FieldCreate_validate_name) name,
                 when_present FieldCreate_validate_data_type data_type with
           | Pass n, Pass d => Valid (mkFieldUpdate n d)
           | cn, cd => ValidationError (errors_of cn ++ errors_of cd)%list
           end)
  /\ (forall s,
         WorkflowUpdate_parse (Some s)
         = match WorkflowCreate_parse s with
           | Valid c => Valid (mkWorkflowUpdate (Some (wc_name c)))
           | ValidationError errors => ValidationError errors
           end)
  /\ (forall id s,
         PromptUpdate_parse (Some s)
         = match PromptCreate_parse id s with
           | Valid c => Valid (mkPromptUpdate (Some (pc_prompt_template c)))
           | ValidationError errors => ValidationError errors
           end)
  /\ (forall id name data_type,
         FieldUpdate_parse (Some name) (Some data_type)
         = match FieldCreate_parse id name data_type with
           | Valid c =>
               Valid (mkFieldUpdate (Some (fc_name c)) (Some (fc_data_type c)))
           | ValidationError errors => ValidationError errors
           end)
  /\ (forall name field_data,
         FieldCreate_parse 0%N name "text" = Valid field_data ->
         FieldUpdate_parse (Some name) None
         = Valid (mkFieldUpdate (Some (fc_name field_data)) None))
  /\ (forall data_type,
         In data_type valid_types ->
         FieldUpdate_parse None (Some data_type)
         = Valid (mkFieldUpdate None (Some data_type)))
  /\ WorkflowUpdate_parse None = Valid (mkWorkflowUpdate None)
  /\ PromptUpdate_parse None = Valid (mkPromptUpdate None)
  /\ FieldUpdate_parse None None = Valid (mkFieldUpdate None None).
Proof.
  repeat split.
  - intros name. unfold WorkflowUpdate_parse, WorkflowUpdate_validate_name,
      WorkflowCreate_validate_name.
    rewrite optional_strip_when_present. reflexivity.
  - intros template.
    unfold PromptUpdate_parse, PromptUpdate_validate_prompt_template,
      PromptCreate_validate_prompt_template.
    rewrite optional_strip_when_present. reflexivity.
  - intros name dt. unfold FieldUpdate_parse, FieldUpdate_validate_name,
      FieldCreate_validate_name.
    rewrite optional_strip_when_present, optional_data_type_when_present.
    reflexivity.
  - intros s. unfold WorkflowUpdate_parse, WorkflowUpdate_validate_name,
      WorkflowCreate_parse, WorkflowCreate_validate_name.
    rewrite optional_strip_agrees.
    destruct (min_length_1 _ s); reflexivity.
  - intros id s. unfold PromptUpdate_parse, PromptUpdate_validate_prompt_template,
      PromptCreate_parse, PromptCreate_validate_prompt_template.
    rewrite optional_strip_agrees.
    destruct (min_length_1 _ s); reflexivity.
  - intros id name dt. unfold FieldUpdate_parse, FieldUpdate_validate_name,
      FieldCreate_parse, FieldCreate_validate_name,
      FieldUpdate_validate_data_type, FieldCreate_validate_data_type.
    rewrite optional_strip_agrees.
    destruct (min_length_1 _ name);
      destruct (negb (Py.str_in dt valid_types)); reflexivity.
  - intros name fd H. apply field_body_validates_iff in H.
    destruct H as (Hns & _ & ->). cbn [fc_name].
    unfold FieldUpdate_parse, FieldUpdate_validate_name.
    rewrite optional_strip_agrees.
    destruct (min_length_strip "Field name cannot be empty" name)
      as [(_ & ->) | (Hb & _)]; [reflexivity | congruence].
  - intros dt Hin. apply str_in_spec in Hin.
    unfold FieldUpdate_parse, FieldUpdate_validate_data_type.
    rewrite Hin. reflexivity.
Qed.

End ValidatedModels.

(** ** The other service functions *)

Section Services.
Context {W : Type} {E : External W} {P : Probes W}.
Import services Props.

(** Both executors differ in the request only. *)
Lemma custom_with_key t u model max_tokens temperature system_message w :
  api_key_missing w = false ->
  execute_prompt_with_custom_params t u model max_tokens temperature
    system_message w =
  match chat_completions_create
          (custom_request t u model max_tokens temperature system_message) w
  with
  | (Returned response, w') =>
      match choices response with
      | Some content :: _ => (Returned (Py.strip content), w')
      | None :: _ =>
          (Raised
             (OtherException
                ("Unexpected error during prompt execution: "
                 ++ "'NoneType' object has no attribute 'strip'")),
           w')
      | [] =>
          (Raised
             (OtherException
                ("Unexpected error during prompt execution: "
                 ++ "list index out of range")),
           w')
      end
  | (Raised (OpenAIAPIError m), w') =>
      (Raised
         (OtherException
            "APIError.__init__() missing 1 required positional argument: 'request'"),
       w')
  | (Raised e, w') =>
      (Raised
         (OtherException
            ("Unexpected error during prompt execution: " ++ str_exn e)),
       w')
  end.
Proof.
  intros H. unfold execute_prompt_with_custom_params, read.
  rewrite run_bind, H, run_catch, run_bind.
  destruct (chat_completions_create _ w) as [[response | e] w'].
  - unfold first_choice_text.
    destruct (choices response) as [| [content |] rest]; reflexivity.
  - destruct e; reflexivity.
Qed.

Lemma custom_without_key t u model max_tokens temperature system_message w :
  api_key_missing w = true ->
  execute_prompt_with_custom_params t u model max_tokens temperature
    system_message w
  = (Raised (ValueError "OPENAI_API_KEY environment variable is required"), w).
Proof.
  intros H. unfold execute_prompt_with_custom_params, read.
  rewrite run_bind, H. reflexivity.
Qed.

(** With the parameters left at their defaults, and also with an empty
    system message, [execute_prompt_with_custom_params] is
    [execute_prompt]: same request, same result, same world. *)
Theorem custom_defaults_are_execute_prompt :
  forall t u w,
    execute_prompt_with_custom_params t u "gpt-3.5-turbo" 1000 (7 # 10)%Q None w
    = execute_prompt t u w
    /\ execute_prompt_with_custom_params t u "gpt-3.5-turbo" 1000 (7 # 10)%Q
         (Some "") w
       = execute_prompt t u w.
Proof.
  intros t u w. split; reflexivity.
Qed.

(** Whatever the parameters, the custom executor keeps the 30-second
    timeout and the user message of [execute_prompt]; it sends the given
    system message unless that is absent or empty, and then the fixed
    instruction; and with the key set it makes exactly one request,
    returning its text stripped. *)
Theorem custom_request_shape :
  forall t u model max_tokens temperature system_message w,
    api_key_missing w = false ->
    let request :=
      custom_request t u model max_tokens temperature system_message in
    cr_timeout request = (30 # 1)%Q
    /\ cr_model request = model
    /\ cr_max_tokens request = max_tokens
    /\ cr_temperature request = temperature
    /\ (exists system,
           cr_messages request
           = [("system", system);
              ("user", t ++ Py.nl ++ Py.nl ++ "User Input: " ++ u)]
           /\ (forall m, system_message = Some m -> m <> "" -> system = m)
           /\ (system_message = None \/ system_message = Some "" ->
               system = system_content))
    /\ snd (execute_prompt_with_custom_params t u model max_tokens temperature
              system_message w)
       = snd (chat_completions_create request w)
    /\ (forall text rest w',
           chat_completions_create request w
           = (Returned (mkChatCompletion (Some text :: rest)), w') ->
           execute_prompt_with_custom_params t u model max_tokens temperature
             system_message w
           = (Returned (Py.strip text), w')).
Proof.
  intros t u model max_tokens temperature system_message w Hkey request.
  pose proof (custom_with_key t u model max_tokens temperature system_message
                w Hkey) as Hrun.
  fold request in Hrun.
  split; [reflexivity |]. split; [reflexivity |]. split; [reflexivity |].
  split; [reflexivity |]. split.
  { exists (system_message_or_default system_message).
    split; [reflexivity |]. split.
    - intros m -> Hm. cbn. apply String.eqb_neq in Hm. rewrite Hm. reflexivity.
    - intros [-> | ->]; reflexivity. }
  split.
  - rewrite Hrun.
    destruct (chat_completions_create request w) as [[response | e] w'].
    + destruct (choices response) as [| [content |] rest]; reflexivity.
    + destruct e; reflexivity.
  - intros text rest w' Hchat. rewrite Hrun, Hchat. reflexivity.
Qed.

(** An exception leaves [execute_prompt] in one of three ways, and never
    as an API error.  It is the [ValueError] for the missing key, raised
    with the world untouched; or the request raised an API error and what
    leaves is the [TypeError] of the failed re-raise, the text of the API
    error being lost; or it is any other failure of the request or of the
    reading of its first choice, under the prefix "Unexpected error during
    prompt execution: ". *)
Theorem execute_prompt_raises_three_ways :
  forall t u w e w',
    execute_prompt t u w = (Raised e, w') ->
    (forall m, e <> OpenAIAPIError m)
    /\ ((e = ValueError "OPENAI_API_KEY environment variable is required"
         /\ w' = w /\ api_key_missing w = true)
        \/ (e = OtherException
                  "APIError.__init__() missing 1 required positional argument: 'request'"
            /\ exists m,
                chat_completions_create (completion_request t u) w
                = (Raised (OpenAIAPIError m), w'))
        \/ (exists m,
               e = OtherException
                     ("Unexpected error during prompt execution: " ++ m)
               /\ forall m',
                   chat_completions_create (completion_request t u) w
                   <> (Raised (OpenAIAPIError m'), w'))).
Proof.
  intros t u w e w' H.
  destruct (api_key_missing w) eqn:Hkey.
  - rewrite (execute_prompt_without_key t u w Hkey) in H.
    inversion H; subst. split; [discriminate | left; auto].
  - rewrite (execute_prompt_with_key t u w Hkey) in H.
    destruct (chat_completions_create (completion_request t u) w)
      as [[response | e1] w1].
    + destruct (choices response) as [| [content |] rest];
        inversion H; subst; (split; [discriminate |]);
        right; right; eexists; (split; [reflexivity | discriminate]).
    + destruct e1; inversion H; subst; (split; [discriminate |]);
        try (right; right; eexists; (split; [reflexivity | discriminate]));
        right; left; split; [reflexivity | eexists; reflexivity].
Qed.

(** A text returned by [execute_prompt] is the stripped content of the
    first choice of the completion: stripping it again changes nothing and
    it does not begin with white space.  It can be empty: a content of
    white space only is returned as "", a success. *)
Theorem execute_prompt_returns_stripped_content :
  forall t u w text w',
    execute_prompt t u w = (Returned text, w') ->
    (exists content rest,
        chat_completions_create (completion_request t u) w
        = (Returned (mkChatCompletion (Some content :: rest)), w')
        /\ text = Py.strip content
        /\ (all_space content = true -> text = ""))
    /\ Py.strip text = text
    /\ (forall c rest, text = String c rest -> Py.isspace c = false).
Proof.
  intros t u w text w' H.
  destruct (api_key_missing w) eqn:Hkey.
  { rewrite (execute_prompt_without_key t u w Hkey) in H. discriminate. }
  rewrite (execute_prompt_with_key t u w Hkey) in H.
  destruct (chat_completions_create (completion_request t u) w)
    as [[[[| [content |] rest]] | e1] w1]; cbn [choices] in H;
    try discriminate; [| destruct e1; discriminate].
  inversion H; subst. split.
  - exists content, rest. repeat split. intros Hb. apply strip_empty, Hb.
  - split; [apply strip_idem |].
    intros c r Hc. exact (strip_head _ _ _ Hc).
Qed.

(** Without an API key, unset or empty, no request is made: both executors
    raise the same [ValueError] and the connection test returns False, the
    world being left as it was. *)
Theorem no_request_without_key :
  forall w,
    api_key_missing w = true ->
    (forall t u,
        execute_prompt t u w
        = (Raised (ValueError "OPENAI_API_KEY environment variable is required"),
           w))
    /\ (forall t u model max_tokens temperature system_message,
           execute_prompt_with_custom_params t u model max_tokens temperature
             system_message w
           = (Raised
                (ValueError "OPENAI_API_KEY environment variable is required"),
              w))
    /\ test_openai_connection w = (Returned false, w).
Proof.
  intros w Hkey. split; [| split].
  - intros t u. apply execute_prompt_without_key, Hkey.
  - intros. apply custom_without_key, Hkey.
  - unfold test_openai_connection, read.
    rewrite run_catch, run_bind, Hkey. reflexivity.
Qed.

(** The connection test never raises.  It returns True exactly when the
    key is set and the test request returns a completion whose first choice
    has a content; with the key set it makes that one request, whatever
    comes of it. *)
Theorem connection_test_never_raises :
  forall w,
    exists answer,
      test_openai_connection w
      = (Returned answer,
         if api_key_missing w then w else snd (chat_completions_hello w))
      /\ (answer = true <->
          api_key_missing w = false
          /\ exists content rest w',
               chat_completions_hello w
               = (Returned (mkChatCompletion (Some content :: rest)), w')).
Proof.
  intros w. unfold test_openai_connection, read.
  rewrite run_catch, run_bind.
  destruct (api_key_missing w) eqn:Hkey.
  - exists false. split; [reflexivity |].
    split; [discriminate | intros (H & _); discriminate].
  - rewrite run_bind.
    destruct (chat_completions_hello w) as [[[[| [content |] rest]] | e] w']
      eqn:Hhello; cbn [snd].
    + exists false. split; [reflexivity |].
      split; [discriminate |]. intros (_ & c & r & w2 & H). discriminate.
    + exists true. split; [reflexivity |].
      split; [| reflexivity]. intros _. split; [reflexivity |].
      exists content, rest, w'. reflexivity.
    + exists false. split; [reflexivity |].
      split; [discriminate |]. intros (_ & c & r & w2 & H). discriminate.
    + exists false. split; [reflexivity |].
      split; [discriminate |]. intros (_ & c & r & w2 & H). discriminate.
Qed.

End Services.

(** ** The store client *)

Section Database.
Context {W Client : Type}.
Variable getenv : string -> W -> option string.
Variable create_client : string -> string -> M W Client.
Import database.

(** [get_supabase_client] creates a client only when both variables are
    set and not empty, and then with their values.  A missing URL is
    reported first, also when the key is missing too; either way the
    [ValueError] is raised before [create_client] is called. *)
Theorem client_needs_both_variables :
  forall w,
    (unset (getenv "SUPABASE_URL" w) = true ->
     get_supabase_client getenv create_client w
     = (Raised (ValueError "SUPABASE_URL environment variable is required"), w))
    /\ (unset (getenv "SUPABASE_URL" w) = false ->
        unset (getenv "SUPABASE_SERVICE_KEY" w) = true ->
        get_supabase_client getenv create_client w
        = (Raised
             (ValueError "SUPABASE_SERVICE_KEY environment variable is required"),
           w))
    /\ (forall url key,
           getenv "SUPABASE_URL" w = Some url -> url <> "" ->
           getenv "SUPABASE_SERVICE_KEY" w = Some key -> key <> "" ->
           get_supabase_client getenv create_client w = create_client url key w)
    /\ (forall client w',
           get_supabase_client getenv create_client w = (Returned client, w') ->
           exists url key,
             getenv "SUPABASE_URL" w = Some url /\ url <> ""
             /\ getenv "SUPABASE_SERVICE_KEY" w = Some key /\ key <> ""
             /\ create_client url key w = (Returned client, w')).
Proof.
  intros w. unfold get_supabase_client, read, unset.
  rewrite !run_bind.
  destruct (getenv "SUPABASE_URL" w) as [url |] eqn:Hurl;
    destruct (getenv "SUPABASE_SERVICE_KEY" w) as [key |] eqn:Hkey.
  - destruct (String.eqb_spec url ""); destruct (String.eqb_spec key "");
      repeat split; try discriminate; try reflexivity;
      try (intros u k Hu Hnu Hk Hnk; inversion Hu; inversion Hk; congruence).
    intros client w' H. exists url, key. auto.
  - destruct (String.eqb_spec url "");
      repeat split; try discriminate; try reflexivity.
  - destruct (String.eqb_spec key "");
      repeat split; try discriminate; try reflexivity.
  - repeat split; try discriminate; try reflexivity.
Qed.

End Database.

(** ** The handlers, path by path *)

Section Paths.
Context {W : Type} {E : External W} {P : Probes W}.
Import main Spec Props.

Lemma respond_raised {A : Type} (code : Z) (m : M W A) w s d w' :
  m w = (Raised (HTTPException s d), w') ->
  respond code m w = (mkResponse s (Detail d), w').
Proof. intros H. unfold respond. rewrite H. reflexivity. Qed.

Lemma respond_returned {A : Type} (code : Z) (m : M W A) w a w' :
  m w = (Returned a, w') ->
  respond code m w = (mkResponse code (Body a), w').
Proof. intros H. unfold respond. rewrite H. reflexivity. Qed.

(** Creating a workflow is one round trip to the store, and the answer is
    201, 409 or 500 and nothing else: 201 with the first row the insert
    returned; 500 when the insert returned no row, the handler's own
    exception being caught and wrapped like a store error; 500 with the
    store's message when the insert raised anything but a duplicate key,
    whatever the class of the exception. *)
Theorem create_workflow_outcomes :
  forall name workflow_data w,
    WorkflowCreate_parse name = Valid workflow_data ->
    snd (POST_workflows name w)
    = snd (workflows_insert (wc_name workflow_data) w)
    /\ In (status (fst (POST_workflows name w))) [201; 409; 500]%Z
    /\ (forall row rows w',
           workflows_insert (wc_name workflow_data) w
           = (Returned (row :: rows), w') ->
           POST_workflows name w
           = (mkResponse 201
                (Body (mkWorkflow (w_id row) (w_name row) (w_created_at row)
                         None)), w'))
    /\ (forall w',
           workflows_insert (wc_name workflow_data) w = (Returned [], w') ->
           POST_workflows name w
           = (mkResponse 500
                (Detail ("Database error: "
                         ++ str_exn (HTTPException 500
                                       "Failed to create workflow"))), w'))
    /\ (forall e w',
           workflows_insert (wc_name workflow_data) w = (Raised e, w') ->
           is_duplicate_key e = false ->
           POST_workflows name w
           = (mkResponse 500 (Detail ("Database error: " ++ str_exn e)), w')).
Proof.
  intros name wd w Hparse. unfold POST_workflows. rewrite Hparse.
  unfold respond, create_workflow. rewrite run_catch, run_bind.
  destruct (workflows_insert (wc_name wd) w) as [[[| row rows] | e] w1].
  - rewrite run_raise.
    replace (is_duplicate_key (HTTPException 500 "Failed to create workflow"))
      with false by (vm_compute; reflexivity).
    rewrite run_raise. cbn [fst snd status].
    repeat split; try discriminate; cbn; auto.
    intros w' H. inversion H; subst. reflexivity.
  - rewrite run_ret. cbn [fst snd status].
    repeat split; try discriminate; cbn; auto.
    intros r rs w' H. inversion H; subst. reflexivity.
  - destruct (is_duplicate_key e) eqn:Hdup; rewrite run_raise;
      cbn [fst snd status]; repeat split; try discriminate; cbn; auto.
    + intros e' w' H. inversion H; subst. congruence.
    + intros e' w' H _. inversion H; subst. reflexivity.
Qed.


(** Executing a workflow that is not stored, or one without fields, is
    answered 404, with a detail of its own in each case, right after the
    lookup that came back empty: no prompt is fetched and no generation
    requested. *)
Theorem execute_without_workflow_or_fields :
  forall wid req w u,
    uuid_UUID wid = Some u ->
    (forall wa,
        workflows_select u w = (Returned [], wa) ->
        respond 200 (execute_workflow wid req) w
        = (mkResponse 404 (Detail "Workflow not found"), wa))
    /\ (forall wf wfs wa wb,
           workflows_select u w = (Returned (wf :: wfs), wa) ->
           fields_select u wa = (Returned [], wb) ->
           respond 200 (execute_workflow wid req) w
           = (mkResponse 404 (Detail "No fields found for this workflow"), wb)).
Proof.
  intros wid req w u Hu. split.
  - intros wa Hwf. apply respond_raised.
    unfold execute_workflow, validate_uuid_format.
    rewrite run_catch, run_bind, Hu, run_ret, run_bind, Hwf. reflexivity.
  - intros wf wfs wa wb Hwf Hfs. apply respond_raised.
    unfold execute_workflow, validate_uuid_format.
    rewrite run_catch, run_bind, Hu, run_ret, run_bind, Hwf, run_bind, Hfs.
    reflexivity.
Qed.

(** The run of [create_field_with_prompt] up to the field insert. *)
Lemma create_field_run wid field_data prompt_data w u id ids wa :
  uuid_UUID wid = Some u ->
  workflows_select_id u w = (Returned (id :: ids), wa) ->
  fc_workflow_id field_data = u ->
  create_field_with_prompt wid field_data prompt_data w =
  match fields_insert u (fc_name field_data) (fc_data_type field_data) wa with
  | (Returned [], wb) =>
      (Raised (HTTPException 500 "Failed to create field"), wb)
  | (Returned (field :: _), wb) =>
      if negb (N.eqb (pc_field_id prompt_data) (f_id field))
      then (Raised (HTTPException 400
                      "Prompt field_id must match the created field ID"), wb)
      else
        match prompts_insert (f_id field) (pc_prompt_template prompt_data) wb
        with
        | (Returned [], wc) =>
            match fields_delete (f_id field) wc with
            | (Returned _, wd) =>
                (Raised (HTTPException 500 "Failed to create prompt"), wd)
            | (Raised e, wd) => (Raised (field_error e), wd)
            end
        | (Returned (prompt :: _), wc) =>
            (Returned
               (mkFieldWithPrompts (f_id field) (f_workflow_id field)
                  (f_name field) (f_data_type field) (f_created_at field)
                  [Prompt_of_row prompt]), wc)
        | (Raised e, wc) => (Raised (field_error e), wc)
        end
  | (Raised e, wb) => (Raised (field_error e), wb)
  end.
Proof.
  intros Hu Hwf Hsame.
  unfold create_field_with_prompt, validate_uuid_format.
  rewrite run_catch, run_bind, Hu, run_ret, run_bind, Hwf.
  rewrite Hsame, N.eqb_refl. cbv beta iota zeta. unfold negb at 1.
  rewrite run_bind.
  destruct (fields_insert u (fc_name field_data) (fc_data_type field_data) wa)
    as [[[| field rows] | e] wb].
  - reflexivity.
  - cbv beta iota zeta.
    destruct (negb (N.eqb (pc_field_id prompt_data) (f_id field)));
      [reflexivity |].
    rewrite run_bind.
    destruct (prompts_insert (f_id field) (pc_prompt_template prompt_data) wb)
      as [[[| prompt prompts] | e] wc].
    + rewrite run_bind.
      destruct (fields_delete (f_id field) wc) as [[deleted | e] wd].
      * reflexivity.
      * unfold except_http_reraise, field_error.
        destruct e; try reflexivity; destruct (is_duplicate_key _); reflexivity.
    + reflexivity.
    + unfold except_http_reraise, field_error.
      destruct e; try reflexivity; destruct (is_duplicate_key _); reflexivity.
  - unfold except_http_reraise, field_error.
    destruct e; try reflexivity; destruct (is_duplicate_key _); reflexivity.
Qed.

(** Creating a field fails before any write when the workflow is not
    stored (404) or when the body names another workflow than the path
    (400): the world is the one the workflow lookup left.  When the field
    insert returns no row the answer is 500 and no prompt is inserted. *)
Theorem create_field_fails_before_writing :
  forall wid field_data prompt_data w u,
    uuid_UUID wid = Some u ->
    (forall wa,
        workflows_select_id u w = (Returned [], wa) ->
        respond 201 (create_field_with_prompt wid field_data prompt_data) w
        = (mkResponse 404 (Detail "Workflow not found"), wa))
    /\ (forall id ids wa,
           workflows_select_id u w = (Returned (id :: ids), wa) ->
           fc_workflow_id field_data <> u ->
           respond 201 (create_field_with_prompt wid field_data prompt_data) w
           = (mkResponse 400
                (Detail "Field workflow_id must match the URL workflow_id"),
              wa))
    /\ (forall id ids wa wb,
           workflows_select_id u w = (Returned (id :: ids), wa) ->
           fc_workflow_id field_data = u ->
           fields_insert u (fc_name field_data) (fc_data_type field_data) wa
           = (Returned [], wb) ->
           respond 201 (create_field_with_prompt wid field_data prompt_data) w
           = (mkResponse 500 (Detail "Failed to create field"), wb)).
Proof.
  intros wid fd pd w u Hu. split; [| split].
  - intros wa Hwf. apply respond_raised.
    unfold create_field_with_prompt, validate_uuid_format.
    rewrite run_catch, run_bind, Hu, run_ret, run_bind, Hwf. reflexivity.
  - intros id ids wa Hwf Hdiff. apply respond_raised.
    unfold create_field_with_prompt, validate_uuid_format.
    rewrite run_catch, run_bind, Hu, run_ret, run_bind, Hwf.
    apply N.eqb_neq in Hdiff. rewrite Hdiff. reflexivity.
  - intros id ids wa wb Hwf Hsame Hins. apply respond_raised.
    rewrite (create_field_run _ _ _ _ _ _ _ _ Hu Hwf Hsame), Hins.
    reflexivity.
Qed.

(** When the workflow exists, the identifiers match and both inserts
    return a row, the field is answered 201 with the inserted field row and,
    as its only prompt, the inserted prompt row; three round trips were
    made, the prompt insert last. *)
Theorem create_field_success :
  forall wid field_data prompt_data w u id ids wa field rows wb prompt prompts
         wc,
    uuid_UUID wid = Some u ->
    workflows_select_id u w = (Returned (id :: ids), wa) ->
    fc_workflow_id field_data = u ->
    fields_insert u (fc_name field_data) (fc_data_type field_data) wa
    = (Returned (field :: rows), wb) ->
    pc_field_id prompt_data = f_id field ->
    prompts_insert (f_id field) (pc_prompt_template prompt_data) wb
    = (Returned (prompt :: prompts), wc) ->
    respond 201 (create_field_with_prompt wid field_data prompt_data) w
    = (mkResponse 201
         (Body (mkFieldWithPrompts (f_id field) (f_workflow_id field)
                  (f_name field) (f_data_type field) (f_created_at field)
                  [mkPrompt (p_id prompt) (p_field_id prompt)
                     (p_prompt_template prompt) (p_created_at prompt)])),
       wc).
Proof.
  intros wid fd pd w u id ids wa field rows wb prompt prompts wc
    Hu Hwf Hsame Hins Hid Hprompt.
  apply respond_returned.
  rewrite (create_field_run _ _ _ _ _ _ _ _ Hu Hwf Hsame), Hins, Hid,
    N.eqb_refl.
  cbn [negb]. rewrite Hprompt. reflexivity.
Qed.

(** When the prompt insert returns no row, the field just inserted is
    deleted by its identifier.  If the delete returns, the answer is 500
    "Failed to create prompt"; if the delete raises, the answer is the one
    made of that exception, a 500 "Database error" for a store error, and
    nothing more is tried. *)
Theorem compensating_delete :
  forall wid field_data prompt_data w u id ids wa field rows wb wc,
    uuid_UUID wid = Some u ->
    workflows_select_id u w = (Returned (id :: ids), wa) ->
    fc_workflow_id field_data = u ->
    fields_insert u (fc_name field_data) (fc_data_type field_data) wa
    = (Returned (field :: rows), wb) ->
    pc_field_id prompt_data = f_id field ->
    prompts_insert (f_id field) (pc_prompt_template prompt_data) wb
    = (Returned [], wc) ->
    snd (create_field_with_prompt wid field_data prompt_data w)
    = snd (fields_delete (f_id field) wc)
    /\ (forall deleted wd,
           fields_delete (f_id field) wc = (Returned deleted, wd) ->
           respond 201 (create_field_with_prompt wid field_data prompt_data) w
           = (mkResponse 500 (Detail "Failed to create prompt"), wd))
    /\ (forall e wd,
           fields_delete (f_id field) wc = (Raised e, wd) ->
           create_field_with_prompt wid field_data prompt_data w
           = (Raised (field_error e), wd)).
Proof.
  intros wid fd pd w u id ids wa field rows wb wc
    Hu Hwf Hsame Hins Hid Hprompt.
  pose proof (create_field_run wid fd pd w u id ids wa Hu Hwf Hsame) as Hrun.
  rewrite Hins, Hid, N.eqb_refl in Hrun. cbn [negb] in Hrun.
  rewrite Hprompt in Hrun.
  destruct (fields_delete (f_id field) wc) as [[deleted | e] wd] eqn:Hdel.
  - repeat split.
    + rewrite Hrun. reflexivity.
    + intros d' wd' H. inversion H; subst. apply respond_raised. exact Hrun.
    + intros e wd' H. discriminate.
  - repeat split.
    + rewrite Hrun. reflexivity.
    + intros d' wd' H. discriminate.
    + intros e' wd' H. inversion H; subst. exact Hrun.
Qed.

(** A duplicate-key exception is answered 409 "A field with this name
    already exists in this workflow" whichever insert raised it: the field
    insert, or the prompt insert, in which case the field stays inserted,
    the world being the one the failed prompt insert left. *)
Theorem duplicate_key_on_either_insert :
  forall wid field_data prompt_data w u id ids wa,
    uuid_UUID wid = Some u ->
    workflows_select_id u w = (Returned (id :: ids), wa) ->
    fc_workflow_id field_data = u ->
    (forall e wb,
        fields_insert u (fc_name field_data) (fc_data_type field_data) wa
        = (Raised e, wb) ->
        (forall s d, e <> HTTPException s d) ->
        is_duplicate_key e = true ->
        respond 201 (create_field_with_prompt wid field_data prompt_data) w
        = (mkResponse 409
             (Detail "A field with this name already exists in this workflow"),
           wb))
    /\ (forall field rows wb e wc,
           fields_insert u (fc_name field_data) (fc_data_type field_data) wa
           = (Returned (field :: rows), wb) ->
           pc_field_id prompt_data = f_id field ->
           prompts_insert (f_id field) (pc_prompt_template prompt_data) wb
           = (Raised e, wc) ->
           (forall s d, e <> HTTPException s d) ->
           is_duplicate_key e = true ->
           respond 201 (create_field_with_prompt wid field_data prompt_data) w
           = (mkResponse 409
                (Detail "A field with this name already exists in this workflow"),
              wc)).
Proof.
  intros wid fd pd w u id ids wa Hu Hwf Hsame.
  pose proof (create_field_run wid fd pd w u id ids wa Hu Hwf Hsame) as Hrun.
  split.
  - intros e wb Hins Hclass Hdup. apply respond_raised.
    rewrite Hrun, Hins. unfold field_error. rewrite Hdup.
    destruct e; try reflexivity. exfalso. eapply Hclass. reflexivity.
  - intros field rows wb e wc Hins Hid Hprompt Hclass Hdup.
    apply respond_raised.
    rewrite Hrun, Hins, Hid, N.eqb_refl. cbn [negb]. rewrite Hprompt.
    unfold field_error. rewrite Hdup.
    destruct e; try reflexivity. exfalso. eapply Hclass. reflexivity.
Qed.

(** The health probe never raises and answers 200 or 503 only: 200 when
    the probing select returns, also without rows, 503 with the text of the
    exception when it raises. *)
Theorem health_check_outcomes :
  forall w,
    In (status (fst (GET_health w))) [200; 503]%Z
    /\ (forall rows w',
           workflows_select_id_limit_1 w = (Returned rows, w') ->
           GET_health w
           = (mkResponse 200
                (Body [("status", "healthy"); ("database", "connected")]), w'))
    /\ (forall e w',
           workflows_select_id_limit_1 w = (Raised e, w') ->
           GET_health w
           = (mkResponse 503
                (Body [("status", "unhealthy"); ("database", "disconnected");
                       ("error", str_exn e)]), w')).
Proof.
  intros w. unfold GET_health, health_check. rewrite run_catch, run_bind.
  destruct (workflows_select_id_limit_1 w) as [[rows | e] w1];
    rewrite run_ret; cbn [fst status]; repeat split; cbn; auto;
    try discriminate.
  - intros r w' H. inversion H; subst. reflexivity.
  - intros e' w' H. inversion H; subst. reflexivity.
Qed.

End Paths.

(** ** Fetching the tree, and what the reading handlers leave alone *)

Section Reading.
Context {W : Type} {E : External W}.
Import main Spec Props.

Lemma get_workflow_run wid w u wf wfs wa :
  uuid_UUID wid = Some u ->
  workflows_select u w = (Returned (wf :: wfs), wa) ->
  get_workflow wid w =
  match fields_select u wa with
  | (Returned fs, wb) =>
      match for_each nest_field fs [] wb with
      | (Returned fields, w') =>
          (Returned
             (mkWorkflowComplete (w_id wf) (w_name wf) (w_created_at wf)
                fields), w')
      | (Raised e, w') => (Raised (database_error e), w')
      end
  | (Raised e, wb) => (Raised (database_error e), wb)
  end.
Proof.
  intros Hu Hwf. unfold get_workflow, validate_uuid_format.
  rewrite run_catch, run_bind, Hu, run_ret, run_bind, Hwf, run_bind.
  destruct (fields_select u wa) as [[fs | e] wb].
  - rewrite run_bind. unfold nest_field, nested. cbv zeta.
    destruct (for_each _ fs [] wb) as [[fields | e] w'].
    + reflexivity.
    + destruct e; reflexivity.
  - destruct e; reflexivity.
Qed.

Lemma nest_all fs w pss w' :
  every_fetch_returns fs w pss w' ->
  forall acc,
    for_each nest_field fs acc w = (Returned (acc ++ tree fs pss)%list, w').
Proof.
  induction 1 as [w | f fs w w1 w2 ps pss Hsel _ IH]; intros acc.
  - cbn. rewrite app_nil_r. reflexivity.
  - rewrite for_each_cons. unfold nest_field at 1.
    rewrite run_bind, Hsel, run_ret, IH, <- app_assoc. reflexivity.
Qed.

Lemma nest_raised fs :
  forall acc w e w',
    for_each nest_field fs acc w = (Raised e, w') ->
    exists pre f post w1,
      fs = (pre ++ f :: post)%list
      /\ prompts_select (f_id f) w1 = (Raised e, w').
Proof.
  induction fs as [| f fs IH]; intros acc w e w' H; [discriminate |].
  rewrite for_each_cons in H. unfold nest_field at 1 in H.
  rewrite run_bind in H.
  destruct (prompts_select (f_id f) w) as [[ps | e1] w1] eqn:Hsel.
  - rewrite run_ret in H.
    destruct (IH _ _ _ _ H) as (pre & g & post & w2 & -> & Hg).
    exists (f :: pre), g, post, w2. split; [reflexivity | exact Hg].
  - inversion H; subst. exists [], f, fs, w. split; [reflexivity | exact Hsel].
Qed.

Lemma tree_facts fs w pss w' :
  every_fetch_returns fs w pss w' ->
  length (tree fs pss) = length fs
  /\ map fp_id (tree fs pss) = map f_id fs
  /\ map fp_name (tree fs pss) = map f_name fs
  /\ map fp_prompts (tree fs pss) = map (map Prompt_of_row) pss.
Proof.
  induction 1 as [w | f fs w w1 w2 ps pss _ _ (IH1 & IH2 & IH3 & IH4)].
  - repeat split.
  - unfold tree in *. cbn. rewrite IH1, IH2, IH3, IH4. repeat split.
Qed.

(** Fetching a stored workflow when the field lookup and every prompt
    fetch return: the answer is 200 with the first workflow row and its
    fields in the order the store returned them, each with all the prompts
    returned for it, in order.  A workflow without fields is answered 200
    with an empty list. *)
Theorem fetch_returns_the_tree :
  forall wid w u wf wfs wa fs wb pss w',
    uuid_UUID wid = Some u ->
    workflows_select u w = (Returned (wf :: wfs), wa) ->
    fields_select u wa = (Returned fs, wb) ->
    every_fetch_returns fs wb pss w' ->
    GET_workflow wid w
    = (mkResponse 200
         (Body (mkWorkflowComplete (w_id wf) (w_name wf) (w_created_at wf)
                  (tree fs pss))), w')
    /\ length (tree fs pss) = length fs
    /\ map fp_id (tree fs pss) = map f_id fs
    /\ map fp_name (tree fs pss) = map f_name fs
    /\ map fp_prompts (tree fs pss) = map (map Prompt_of_row) pss
    /\ (fs = [] -> tree fs pss = []).
Proof.
  intros wid w u wf wfs wa fs wb pss w' Hu Hwf Hfs Hall.
  split.
  - unfold GET_workflow, respond.
    rewrite (get_workflow_run _ _ _ _ _ _ Hu Hwf), Hfs,
      (nest_all _ _ _ _ Hall). reflexivity.
  - destruct (tree_facts _ _ _ _ Hall) as (H1 & H2 & H3 & H4).
    repeat split; auto. intros ->. reflexivity.
Qed.

(** Fetching a stored workflow never returns part of a tree: when the
    field lookup raises, or the prompt fetch of some field does, the answer
    is the error made of that exception, 500 "Database error: ..." for a
    store error. *)
Theorem fetch_fails_as_a_whole :
  forall wid w u wf wfs wa,
    uuid_UUID wid = Some u ->
    workflows_select u w = (Returned (wf :: wfs), wa) ->
    (forall e wb,
        fields_select u wa = (Raised e, wb) ->
        get_workflow wid w = (Raised (database_error e), wb))
    /\ (forall fs wb e w',
           fields_select u wa = (Returned fs, wb) ->
           for_each nest_field fs [] wb = (Raised e, w') ->
           get_workflow wid w = (Raised (database_error e), w')
           /\ exists pre f post w1,
               fs = (pre ++ f :: post)%list
               /\ prompts_select (f_id f) w1 = (Raised e, w'))
    /\ (forall m,
           database_error (OtherException m)
           = HTTPException 500 ("Database error: " ++ m)).
Proof.
  intros wid w u wf wfs wa Hu Hwf.
  pose proof (get_workflow_run _ _ _ _ _ _ Hu Hwf) as Hrun.
  split; [| split].
  - intros e wb Hfs. rewrite Hrun, Hfs. reflexivity.
  - intros fs wb e w' Hfs Hloop. split.
    + rewrite Hrun, Hfs, Hloop. reflexivity.
    + exact (nest_raised _ _ _ _ _ Hloop).
  - reflexivity.
Qed.

(** *** Relations kept and costs *)

Section Kept.
Variable R : W -> W -> Prop.
Hypothesis R_refl : forall w, R w w.
Hypothesis R_trans : forall a b c, R a b -> R b c -> R a c.

Lemma kept_ret {A : Type} (a : A) : kept_by R (ret a : M W A).
Proof. intros w. apply R_refl. Qed.

Lemma kept_raise {A : Type} (e : exn) : kept_by R (raise e : M W A).
Proof. intros w. apply R_refl. Qed.

Lemma kept_read {A : Type} (f : W -> A) : kept_by R (read f).
Proof. intros w. apply R_refl. Qed.

Lemma kept_bind {A B : Type} (m : M W A) (k : A -> M W B) :
  kept_by R m -> (forall a, kept_by R (k a)) -> kept_by R (bind m k).
Proof.
  intros Hm Hk w. rewrite run_bind. specialize (Hm w).
  destruct (m w) as [[a | e] w1]; cbn [snd] in *; [| exact Hm].
  eapply R_trans; [exact Hm | apply Hk].
Qed.

Lemma kept_catch {A : Type} (m : M W A) (h : exn -> M W A) :
  kept_by R m -> (forall e, kept_by R (h e)) -> kept_by R (catch m h).
Proof.
  intros Hm Hh w. rewrite run_catch. specialize (Hm w).
  destruct (m w) as [[a | e] w1]; cbn [snd] in *; [exact Hm |].
  eapply R_trans; [exact Hm | apply Hh].
Qed.

Lemma kept_for_each {A S : Type} (body : S -> A -> M W S) (xs : list A) :
  (forall s x, kept_by R (body s x)) ->
  forall s, kept_by R (for_each body xs s).
Proof.
  intros Hbody. induction xs as [| x xs IH]; intros s.
  - apply kept_ret.
  - cbn [for_each]. apply kept_bind; [apply Hbody | exact IH].
Qed.

Lemma kept_validate wid : kept_by R (validate_uuid_format wid).
Proof.
  unfold validate_uuid_format.
  destruct (uuid_UUID wid); [apply kept_ret | apply kept_raise].
Qed.

Lemma kept_reraise {A : Type} (other : exn -> M W A) e :
  (forall e', kept_by R (other e')) -> kept_by R (except_http_reraise other e).
Proof.
  intros H. unfold except_http_reraise.
  destruct e; try apply H. apply kept_raise.
Qed.

Lemma kept_execute_prompt t u :
  (forall request, kept_by R (chat_completions_create request)) ->
  kept_by R (services.execute_prompt t u).
Proof.
  intros Hchat. unfold services.execute_prompt.
  apply kept_bind; [apply kept_read |]. intros [|]; [apply kept_raise |].
  apply kept_catch.
  - apply kept_bind; [apply Hchat |]. intros response.
    unfold services.first_choice_text.
    destruct (choices response) as [| [c |] rest];
      try apply kept_raise; apply kept_ret.
  - intros e. destruct e; apply kept_raise.
Qed.

Lemma kept_process_field req st f :
  (forall id, kept_by R (prompts_select id)) ->
  (forall request, kept_by R (chat_completions_create request)) ->
  kept_by R (process_field req st f).
Proof.
  intros Hsel Hchat. unfold process_field.
  apply kept_bind; [apply Hsel |]. intros [| p ps]; [apply kept_ret |].
  apply kept_catch.
  - apply kept_bind; [apply kept_execute_prompt, Hchat |].
    intros text. apply kept_ret.
  - intros e. apply kept_ret.
Qed.

End Kept.

(** The two reading handlers reach the world through select operations
    and, for the execution, generation requests, and through nothing else:
    a relation between worlds that is reflexive and transitive and holds
    across each of those operations holds across the whole handler, however
    it ends.  No insert and no delete is made. *)
Theorem reading_handlers_only_read :
  forall R : W -> W -> Prop,
    (forall w, R w w) ->
    (forall a b c, R a b -> R b c -> R a c) ->
    (forall id, kept_by R (workflows_select id)) ->
    (forall id, kept_by R (fields_select id)) ->
    (forall id, kept_by R (prompts_select id)) ->
    (forall wid, kept_by R (get_workflow wid))
    /\ ((forall request, kept_by R (chat_completions_create request)) ->
        forall wid req, kept_by R (execute_workflow wid req)).
Proof.
  intros R Hrefl Htrans Hwf Hfs Hps.
  pose proof (fun A => @kept_ret R Hrefl A) as Kret.
  pose proof (fun A => @kept_raise R Hrefl A) as Kraise.
  pose proof (fun A B => @kept_bind R Htrans A B) as Kbind.
  pose proof (fun A => @kept_catch R Htrans A) as Kcatch.
  assert (Kouter : forall A (other : exn -> M W A) e,
             (forall e', kept_by R (other e')) ->
             kept_by R (except_http_reraise other e))
    by (intros; apply kept_reraise; assumption).
  split.
  - intros wid. unfold get_workflow. apply Kcatch.
    + apply Kbind; [apply kept_validate, Hrefl |]. intros u.
      apply Kbind; [apply Hwf |]. intros [| wf wfs]; [apply Kraise |].
      apply Kbind; [apply Hfs |]. intros fs.
      apply Kbind; [| intros; apply Kret].
      apply kept_for_each; try assumption. intros acc f.
      apply Kbind; [apply Hps |]. intros ps. apply Kret.
    + intros e. apply Kouter. intros e'. apply Kraise.
  - intros Hchat wid req. unfold execute_workflow. apply Kcatch.
    + apply Kbind; [apply kept_validate, Hrefl |]. intros u.
      apply Kbind; [apply Hwf |]. intros [| wf wfs]; [apply Kraise |].
      apply Kbind; [apply Hfs |]. intros [| f fs]; [apply Kraise |].
      cbv zeta. apply Kbind.
      * apply kept_for_each; try assumption. intros st g.
        apply kept_process_field; assumption.
      * intros st. apply Kbind; [apply kept_read, Hrefl |].
        intros now. apply Kret.
    + intros e. apply Kouter. intros e'. apply Kraise.
Qed.

End Reading.

(** ** Counting *)

Section Accounting.
Context {W : Type} {E : External W}.
Import main Spec Props.

Section Cost.
Variable cost : W -> nat.

Lemma cost_ret {A : Type} (a : A) : costs_at_most cost 0 (ret a : M W A).
Proof. intros w. cbn. lia. Qed.

Lemma cost_raise {A : Type} (e : exn) : costs_at_most cost 0 (raise e : M W A).
Proof. intros w. cbn. lia. Qed.

Lemma cost_weaken {A : Type} (m : M W A) n n' :
  n <= n' -> costs_at_most cost n m -> costs_at_most cost n' m.
Proof. intros Hle H w. specialize (H w). lia. Qed.

Lemma cost_bind {A B : Type} (m : M W A) (k : A -> M W B) n n' :
  costs_at_most cost n m -> (forall a, costs_at_most cost n' (k a)) ->
  costs_at_most cost (n + n') (bind m k).
Proof.
  intros Hm Hk w. rewrite run_bind. specialize (Hm w).
  destruct (m w) as [[a | e] w1]; cbn [snd] in *; [| lia].
  specialize (Hk a w1). lia.
Qed.

Lemma cost_catch {A : Type} (m : M W A) (h : exn -> M W A) n n' :
  costs_at_most cost n m -> (forall e, costs_at_most cost n' (h e)) ->
  costs_at_most cost (n + n') (catch m h).
Proof.
  intros Hm Hh w. rewrite run_catch. specialize (Hm w).
  destruct (m w) as [[a | e] w1]; cbn [snd] in *; [lia |].
  specialize (Hh e w1). lia.
Qed.

Hypothesis chat_costs_one :
  forall request, costs_at_most cost 1 (chat_completions_create request).
Hypothesis fetch_is_free : forall id, costs_at_most cost 0 (prompts_select id).

Lemma cost_execute_prompt t u :
  costs_at_most cost 1 (services.execute_prompt t u).
Proof.
  unfold services.execute_prompt.
  apply (cost_bind _ _ 0 1); [intros w; cbn; lia |].
  intros [|]; [apply (cost_weaken _ 0); [lia | apply cost_raise] |].
  apply (cost_catch _ _ 1 0).
  - apply (cost_bind _ _ 1 0); [apply chat_costs_one |]. intros response.
    unfold services.first_choice_text.
    destruct (choices response) as [| [c |] rest];
      try apply cost_raise; apply cost_ret.
  - intros e. destruct e; apply cost_raise.
Qed.

Lemma cost_process_field req st f :
  costs_at_most cost 1 (process_field req st f).
Proof.
  unfold process_field. apply (cost_bind _ _ 0 1); [apply fetch_is_free |].
  intros [| p ps]; [apply (cost_weaken _ 0); [lia | apply cost_ret] |].
  apply (cost_catch _ _ 1 0).
  - apply (cost_bind _ _ 1 0); [apply cost_execute_prompt |].
    intros text. apply cost_ret.
  - intros e. apply cost_ret.
Qed.

Lemma cost_loop req fs :
  forall st, costs_at_most cost (length fs) (for_each (process_field req) fs st).
Proof.
  induction fs as [| f fs IH]; intros st.
  - apply cost_ret.
  - cbn [for_each length]. change (S (length fs)) with (1 + length fs).
    apply cost_bind; [apply cost_process_field | exact IH].
Qed.

End Cost.

(** For every measure on worlds that a generation request raises by at
    most one and the selects leave alone: [execute_prompt] raises it by at
    most one, the loop over the fields by at most the number of fields,
    however it ends, and a returned execution by at most total_fields.  At
    most one generation request is made per field. *)
Theorem one_generation_per_field :
  forall cost : W -> nat,
    (forall request, costs_at_most cost 1 (chat_completions_create request)) ->
    (forall id, costs_at_most cost 0 (workflows_select id)) ->
    (forall id, costs_at_most cost 0 (fields_select id)) ->
    (forall id, costs_at_most cost 0 (prompts_select id)) ->
    (forall t u, costs_at_most cost 1 (services.execute_prompt t u))
    /\ (forall req fs st,
           costs_at_most cost (length fs) (for_each (process_field req) fs st))
    /\ (forall wid req w resp w',
           execute_workflow wid req w = (Returned resp, w') ->
           cost w' <= cost w + total_fields resp).
Proof.
  intros cost Hchat Hwf Hfs Hps. split; [| split].
  - intros t u. apply cost_execute_prompt. exact Hchat.
  - intros req fs st. apply cost_loop; assumption.
  - intros wid req w resp w' H.
    destruct (execute_workflow_returned _ _ _ _ _ H)
      as (u & wf & wfs & wa & fields & wb & st & _ & Hw & Hf & _ & Hloop & ->).
    cbn [total_fields].
    pose proof (Hwf u w) as H1. rewrite Hw in H1.
    pose proof (Hfs u wa) as H2. rewrite Hf in H2.
    pose proof (cost_loop cost Hchat Hps req fields (mkLocals [] 0 0) wb) as H3.
    rewrite Hloop in H3. cbn [snd] in *. lia.
Qed.

(** In every returned response the two counters are the numbers of
    entries marked successful and failed, total_fields is the number of
    entries, the user input is the one of the request and the time stamp is
    read after the last field was processed. *)
Theorem counters_agree_with_entries :
  forall wid req w resp w',
    execute_workflow wid req w = (Returned resp, w') ->
    successful_executions resp = count_successful (field_results resp)
    /\ failed_executions resp = count_failed (field_results resp)
    /\ total_fields resp = length (field_results resp)
    /\ response_user_input resp = user_input req
    /\ execution_timestamp resp = utcnow w'.
Proof.
  intros wid req w resp w' H.
  destruct (execute_workflow_returned _ _ _ _ _ H)
    as (u & wf & wfs & wa & fields & wb & st & _ & _ & _ & _ & Hloop & ->).
  destruct (loop_returned req _ _ _ _ _ Hloop) as (rs & Hres & Hall & _ & Hs & Hf).
  cbn [l_field_results l_successful_executions l_failed_executions app]
    in Hres, Hs, Hf.
  cbn [successful_executions failed_executions total_fields field_results
       response_user_input execution_timestamp].
  rewrite Hres, Hs, Hf, (Forall2_length Hall). repeat split.
Qed.

(** Of the prompts fetched for a field only the first is used: the
    iteration makes the one call of [execute_prompt] with its template,
    never raises, and appends one entry carrying that template, successful
    with the returned text or failed with the text of the exception. *)
Theorem only_the_first_prompt_is_used :
  forall req st f w p ps w1,
    prompts_select (f_id f) w = (Returned (p :: ps), w1) ->
    exists r,
      process_field req st f w
      = (Returned (if execution_success r then append_successful st r
                   else append_failed st r),
         snd (services.execute_prompt (p_prompt_template p) (user_input req)
                w1))
      /\ describes f r
      /\ prompt_template r = p_prompt_template p
      /\ (forall text w2,
             services.execute_prompt (p_prompt_template p) (user_input req) w1
             = (Returned text, w2) ->
             r = success_result f p text)
      /\ (forall e w2,
             services.execute_prompt (p_prompt_template p) (user_input req) w1
             = (Raised e, w2) ->
             r = error_result f p e).
Proof.
  intros req st f w p ps w1 Hsel.
  destruct (services.execute_prompt (p_prompt_template p) (user_input req) w1)
    as [[text | e] w2] eqn:Hgen.
  - exists (success_result f p text).
    rewrite (process_field_generated req _ _ _ _ _ _ _ _ Hsel Hgen).
    repeat split; try reflexivity.
    + intros t w3 H. inversion H; subst. reflexivity.
    + intros e w3 H. discriminate.
  - exists (error_result f p e).
    rewrite (process_field_generation_failed req _ _ _ _ _ _ _ _ Hsel Hgen).
    repeat split; try reflexivity.
    + intros t w3 H. discriminate.
    + intros e' w3 H. inversion H; subst. reflexivity.
Qed.

End Accounting.

(** ** More concrete runs *)

Section ConcreteMore.
Import main Spec Props Mem.

(** The forms [uuid.UUID] reads besides the plain and the hyphenated one,
    and two it refuses. *)
Example parse_uuid_forms :
  parse_uuid "{00000000-0000-0000-0000-000000000001}" = Some 1%N
  /\ parse_uuid "urn:uuid:00000000-0000-0000-0000-000000000001" = Some 1%N
  /\ parse_uuid "0x0000_0000_0000_0000_0000_00001" = Some 1%N
  /\ parse_uuid "00000000-0000-0000-0000-00000000001" = None
  /\ parse_uuid "0000000000000000000000000000000g" = None.
Proof. repeat split; reflexivity. Qed.

Lemma workflow_name_is_normalised_witness :
  WorkflowCreate_parse "  intake  " = Valid (mkWorkflowCreate "intake")
  /\ WorkflowCreate_parse "intake" = Valid (mkWorkflowCreate "intake").
Proof.
  split; [reflexivity |].
  destruct (workflow_name_is_normalised "  intake  "
              (mkWorkflowCreate "intake") ltac:(vm_compute; reflexivity)) as (_ & _ & _ & _ & H).
  exact H.
Defined.

Lemma field_body_validates_iff_witness :
  FieldCreate_parse 1%N " title " "text" = Valid (mkFieldCreate 1%N "title" "text").
Proof.
  apply field_body_validates_iff.
  split; [reflexivity |]. split; [left; reflexivity | reflexivity].
Defined.

Lemma update_models_follow_create_models_witness :
  FieldUpdate_parse (Some " title ") None
  = Valid (mkFieldUpdate (Some "title") None)
  /\ FieldUpdate_parse None (Some "json")
     = Valid (mkFieldUpdate None (Some "json"))
  /\ FieldUpdate_parse None (Some "JSON")
     = ValidationError
         ["Data type must be one of: text, number, boolean, date, email, url, json"].
Proof.
  destruct update_models_follow_create_models
    as (_ & _ & Hfield & _ & _ & _ & Hname & Htype & _).
  split; [| split].
  - apply (Hname " title " (mkFieldCreate 0%N "title" "text")). reflexivity.
  - apply Htype. cbn. auto 10.
  - rewrite Hfield. reflexivity.
Defined.

Lemma blank_text_is_unprocessable_witness :
  POST_workflows "   " one_workflow
  = (mkResponse 422 (RequestValidationErrors ["Workflow name cannot be empty"]),
     one_workflow).
Proof.
  destruct (blank_text_is_unprocessable (E := external) "   " one_workflow
              ltac:(vm_compute; reflexivity)) as ((errors & H) & _).
  rewrite H. vm_compute in H. inversion H; subst. reflexivity.
Defined.

Lemma custom_request_shape_witness :
  services.execute_prompt_with_custom_params "Summarise" "hello" "gpt-4" 50
    (0 # 1)%Q (Some "Be brief") one_answer
  = (Returned "Hi there",
     snd (chat_completions_create
            (services.custom_request "Summarise" "hello" "gpt-4" 50 (0 # 1)%Q
               (Some "Be brief")) one_answer)).
Proof.
  destruct (custom_request_shape (E := external) "Summarise" "hello" "gpt-4" 50
              (0 # 1)%Q (Some "Be brief") one_answer ltac:(vm_compute; reflexivity))
    as (_ & _ & _ & _ & _ & _ & H).
  apply (H "  Hi there  " []). reflexivity.
Defined.

Lemma execute_prompt_raises_three_ways_witness :
  fst (services.execute_prompt "Summarise" "hello" rate_limited)
  = Raised (OtherException
              "APIError.__init__() missing 1 required positional argument: 'request'")
  /\ exists m,
      fst (services.execute_prompt "Summarise" "hello" null_content)
      = Raised (OtherException
                  ("Unexpected error during prompt execution: " ++ m)).
Proof.
  split; [reflexivity |].
  assert (Hrun :
    services.execute_prompt "Summarise" "hello" null_content
    = (Raised
         (OtherException
            "Unexpected error during prompt execution: 'NoneType' object has no attribute 'strip'"),
       snd (services.execute_prompt "Summarise" "hello" null_content)))
    by (vm_compute; reflexivity).
  destruct (execute_prompt_raises_three_ways (E := external) _ _ _ _ _ Hrun)
    as (_ & [(H & _) | [(H & _) | (m & H & _)]]); try discriminate H.
  exists m. rewrite <- H. reflexivity.
Defined.

Lemma execute_prompt_returns_stripped_content_witness :
  exists content rest w',
    chat_completions_create
      (services.completion_request "Summarise" "hello") one_answer
    = (Returned (mkChatCompletion (Some content :: rest)), w')
    /\ "Hi there" = Py.strip content.
Proof.
  assert (Hrun :
    services.execute_prompt "Summarise" "hello" one_answer
    = (Returned "Hi there",
       snd (services.execute_prompt "Summarise" "hello" one_answer)))
    by (vm_compute; reflexivity).
  destruct (execute_prompt_returns_stripped_content (E := external)
              _ _ _ _ _ Hrun)
    as ((content & rest & H1 & H2 & _) & _).
  exists content, rest. eexists. split; [exact H1 | exact H2].
Defined.

Lemma no_request_without_key_witness :
  services.test_openai_connection empty_key = (Returned false, empty_key)
  /\ sent empty_key = [].
Proof.
  split; [| reflexivity].
  apply (no_request_without_key (E := external) (P := probes) empty_key).
  reflexivity.
Defined.

Lemma connection_test_never_raises_witness :
  exists w',
    services.test_openai_connection one_answer = (Returned true, w')
    /\ sent w' = [hello_request].
Proof.
  destruct (connection_test_never_raises (E := external) (P := probes)
              one_answer) as (answer & Hrun & Hiff).
  assert (Htrue : answer = true).
  { apply Hiff. split; [reflexivity |].
    eexists. eexists. eexists. reflexivity. }
  subst answer. eexists. split; [exact Hrun | reflexivity].
Defined.

Lemma client_needs_both_variables_witness :
  database.get_supabase_client getenv create_client
    [("SUPABASE_SERVICE_KEY", "secret")]
  = (Raised (ValueError "SUPABASE_URL environment variable is required"),
     [("SUPABASE_SERVICE_KEY", "secret")])
  /\ fst (database.get_supabase_client getenv create_client
            [("SUPABASE_URL", "https://db.example");
             ("SUPABASE_SERVICE_KEY", "secret")])
     = Returned ("https://db.example", "secret").
Proof.
  split.
  - apply (client_needs_both_variables getenv create_client). reflexivity.
  - destruct (client_needs_both_variables getenv create_client
                [("SUPABASE_URL", "https://db.example");
                 ("SUPABASE_SERVICE_KEY", "secret")]) as (_ & _ & H & _).
    rewrite (H "https://db.example" "secret");
      [reflexivity | reflexivity | discriminate | reflexivity | discriminate].
Defined.

Lemma create_workflow_outcomes_witness :
  POST_workflows " billing " one_workflow
  = (mkResponse 201 (Body (mkWorkflow 2%N "billing" 1700000100%Z None)),
     snd (workflows_insert "billing" one_workflow))
  /\ map w_name (workflows (snd (POST_workflows " billing " one_workflow)))
     = ["intake"; "billing"].
Proof.
  split; [| reflexivity].
  destruct (create_workflow_outcomes (E := external) " billing "
              (mkWorkflowCreate "billing") one_workflow ltac:(vm_compute; reflexivity))
    as (_ & _ & H & _).
  apply (H (mkWorkflowRow 2%N "billing" 1700000100%Z) []). reflexivity.
Defined.


Lemma execute_without_workflow_or_fields_witness :
  respond 200
    (execute_workflow intake_id (mkWorkflowExecutionRequest "hello"))
    one_workflow
  = (mkResponse 404 (Detail "No fields found for this workflow"), one_workflow).
Proof.
  apply (proj2 (execute_without_workflow_or_fields (E := external) intake_id
                  (mkWorkflowExecutionRequest "hello") one_workflow 1%N ltac:(vm_compute; reflexivity))
           intake_row [] one_workflow one_workflow);
    reflexivity.
Defined.

Lemma create_field_fails_before_writing_witness :
  respond 201
    (create_field_with_prompt intake_id (mkFieldCreate 5%N "title" "text")
       (mkPromptCreate 2%N "Summarise"))
    one_workflow
  = (mkResponse 400 (Detail "Field workflow_id must match the URL workflow_id"),
     one_workflow)
  /\ fields one_workflow = [].
Proof.
  split; [| reflexivity].
  destruct (create_field_fails_before_writing (E := external) intake_id
              (mkFieldCreate 5%N "title" "text") (mkPromptCreate 2%N "Summarise")
              one_workflow 1%N ltac:(vm_compute; reflexivity)) as (_ & H & _).
  apply (H 1%N [] one_workflow); [reflexivity | discriminate].
Defined.

Lemma create_field_success_witness :
  fst (respond 201
         (create_field_with_prompt intake_id (mkFieldCreate 1%N "title" "text")
            (mkPromptCreate 2%N "Summarise"))
         one_workflow)
  = mkResponse 201
      (Body (mkFieldWithPrompts 2%N 1%N "title" "text" 1700000100%Z
               [mkPrompt 3%N 2%N "Summarise" 1700000100%Z])).
Proof.
  rewrite (create_field_success (E := external) intake_id
             (mkFieldCreate 1%N "title" "text") (mkPromptCreate 2%N "Summarise")
             one_workflow 1%N 1%N [] one_workflow
             (mkFieldRow 2%N 1%N "title" "text" 1700000100%Z) []
             (snd (fields_insert 1%N "title" "text" one_workflow))
             (mkPromptRow 3%N 2%N "Summarise" 1700000100%Z) []
             (snd (prompts_insert 2%N "Summarise"
                     (snd (fields_insert 1%N "title" "text" one_workflow)))));
    reflexivity.
Defined.

Lemma compensating_delete_witness :
  exists w',
    respond 201
      (create_field_with_prompt intake_id (mkFieldCreate 1%N "title" "text")
         (mkPromptCreate 2%N "Summarise"))
      prompt_insert_empty
    = (mkResponse 500 (Detail "Failed to create prompt"), w')
    /\ fields w' = [].
Proof.
  destruct (compensating_delete (E := external) intake_id
              (mkFieldCreate 1%N "title" "text") (mkPromptCreate 2%N "Summarise")
              prompt_insert_empty 1%N 1%N []
              (snd (workflows_select_id 1%N prompt_insert_empty))
              (mkFieldRow 2%N 1%N "title" "text" 1700000100%Z) []
              (snd (fields_insert 1%N "title" "text"
                      (snd (workflows_select_id 1%N prompt_insert_empty))))
              (snd (prompts_insert 2%N "Summarise"
                      (snd (fields_insert 1%N "title" "text"
                              (snd (workflows_select_id 1%N
                                      prompt_insert_empty))))))
              ltac:(vm_compute; reflexivity) ltac:(vm_compute; reflexivity) ltac:(vm_compute; reflexivity) ltac:(vm_compute; reflexivity) ltac:(vm_compute; reflexivity) ltac:(vm_compute; reflexivity))
    as (_ & H & _).
  eexists. split; [eapply H; reflexivity | reflexivity].
Defined.

Lemma duplicate_key_on_either_insert_witness :
  fst (respond 201
         (create_field_with_prompt intake_id (mkFieldCreate 1%N "title" "text")
            (mkPromptCreate 2%N "Summarise"))
         field_name_taken)
  = mkResponse 409
      (Detail "A field with this name already exists in this workflow").
Proof.
  destruct (duplicate_key_on_either_insert (E := external) intake_id
              (mkFieldCreate 1%N "title" "text") (mkPromptCreate 2%N "Summarise")
              field_name_taken 1%N 1%N []
              (snd (workflows_select_id 1%N field_name_taken))
              ltac:(vm_compute; reflexivity) ltac:(vm_compute; reflexivity) ltac:(vm_compute; reflexivity)) as (H & _).
  rewrite (H (OtherException
                "duplicate key value violates unique constraint fields_name_key")
             (snd (fields_insert 1%N "title" "text"
                     (snd (workflows_select_id 1%N field_name_taken)))));
    [reflexivity | reflexivity | intros s d; discriminate | reflexivity].
Defined.

Lemma health_check_outcomes_witness :
  fst (GET_health one_workflow)
  = mkResponse 200 (Body [("status", "healthy"); ("database", "connected")])
  /\ fst (GET_health store_down)
     = mkResponse 503
         (Body [("status", "unhealthy"); ("database", "disconnected");
                ("error", "connection refused")]).
Proof.
  split.
  - destruct (health_check_outcomes (P := probes) one_workflow)
      as (_ & H & _).
    rewrite (H [1%N] one_workflow); reflexivity.
  - destruct (health_check_outcomes (P := probes) store_down)
      as (_ & _ & H).
    rewrite (H (OtherException "connection refused") one_workflow); reflexivity.
Defined.

Lemma fetch_returns_the_tree_witness :
  GET_workflow intake_id (three_fields [] [])
  = (mkResponse 200
       (Body (mkWorkflowComplete 1%N "intake" 1700000000%Z
                (tree [summary_field; notes_field; tags_field]
                   [[summary_prompt]; []; [tags_prompt]]))),
     three_fields [] []).
Proof.
  apply (fetch_returns_the_tree (E := external) intake_id (three_fields [] [])
           1%N intake_row [] (three_fields [] [])
           [summary_field; notes_field; tags_field] (three_fields [] []));
    try reflexivity.
  eapply efr_cons; [reflexivity |].
  eapply efr_cons; [reflexivity |].
  eapply efr_cons; [reflexivity |].
  apply efr_nil.
Defined.

Lemma fetch_fails_as_a_whole_witness :
  fst (get_workflow intake_id prompt_fetch_down)
  = Raised (HTTPException 500 "Database error: connection reset").
Proof.
  destruct (fetch_fails_as_a_whole (E := external) intake_id prompt_fetch_down
              1%N intake_row []
              (snd (workflows_select 1%N prompt_fetch_down))
              ltac:(vm_compute; reflexivity) ltac:(vm_compute; reflexivity)) as (_ & H & _).
  destruct (H [summary_field; notes_field; tags_field]
              (snd (@fields_select World external 1%N
                      (snd (@workflows_select World external 1%N
                              prompt_fetch_down))))
              (OtherException "connection reset")
              (snd (get_workflow (E := external) intake_id prompt_fetch_down))
              ltac:(vm_compute; reflexivity) ltac:(vm_compute; reflexivity)) as (Hrun & _).
  rewrite Hrun. reflexivity.
Defined.

Lemma same_tables_round_trip {A : Type} (rows : World -> list A) :
  kept_by same_tables (round_trip (fun w => (Returned (rows w), w))).
Proof.
  intros w. unfold round_trip.
  destruct (forecasts w) as [| [| e |] rest]; repeat split.
Qed.

Lemma same_tables_complete request :
  kept_by same_tables (chat_completions_create request).
Proof.
  intros w. cbn. unfold complete.
  destruct (completions w); repeat split.
Qed.

Lemma reading_handlers_only_read_witness :
  same_tables second_generation_fails
    (snd (execute_workflow intake_id (mkWorkflowExecutionRequest "hello")
            second_generation_fails))
  /\ same_tables prompt_fetch_down
       (snd (get_workflow intake_id prompt_fetch_down)).
Proof.
  destruct (reading_handlers_only_read (E := external) same_tables)
    as (Hget & Hexec).
  - intros w. repeat split.
  - intros a b c (H1 & H2 & H3) (H4 & H5 & H6). repeat split; congruence.
  - intros id. apply same_tables_round_trip.
  - intros id. apply same_tables_round_trip.
  - intros id. apply same_tables_round_trip.
  - split; [apply Hexec, same_tables_complete | apply Hget].
Defined.

Lemma requests_round_trip {A : Type} (rows : World -> list A) :
  costs_at_most requests 0 (round_trip (fun w => (Returned (rows w), w))).
Proof.
  intros w. unfold round_trip, requests.
  destruct (forecasts w) as [| [| e |] rest]; cbn; lia.
Qed.

Lemma requests_complete request :
  costs_at_most requests 1 (chat_completions_create request).
Proof.
  intros w. cbn. unfold complete, requests.
  destruct (completions w); cbn; rewrite length_app; cbn; lia.
Qed.

Lemma one_generation_per_field_witness :
  requests
    (snd (for_each (process_field (mkWorkflowExecutionRequest "hello"))
            [summary_field; notes_field; tags_field] (mkLocals [] 0 0)
            second_generation_fails))
  <= requests second_generation_fails + 3.
Proof.
  destruct (one_generation_per_field (E := external) requests
              requests_complete
              (fun id => requests_round_trip _)
              (fun id => requests_round_trip _)
              (fun id => requests_round_trip _)) as (_ & H & _).
  apply (H (mkWorkflowExecutionRequest "hello")
           [summary_field; notes_field; tags_field] (mkLocals [] 0 0)).
Defined.

Lemma counters_agree_with_entries_witness :
  exists resp w',
    execute_workflow intake_id (mkWorkflowExecutionRequest "hello")
      second_generation_fails
    = (Returned resp, w')
    /\ map execution_success (field_results resp) = [true; false; false]
    /\ successful_executions resp = count_successful (field_results resp)
    /\ failed_executions resp = count_failed (field_results resp).
Proof.
  assert (H : exists resp w',
    execute_workflow intake_id (mkWorkflowExecutionRequest "hello")
      second_generation_fails
    = (Returned resp, w')) by (eexists; eexists; vm_compute; reflexivity).
  destruct H as (resp & w' & H).
  destruct (counters_agree_with_entries (E := external) _ _ _ _ _ H)
    as (Hs & Hf & _).
  exists resp, w'. split; [exact H |]. split; [| split; assumption].
  vm_compute in H. inversion H; subst. reflexivity.
Defined.

Lemma only_the_first_prompt_is_used_witness :
  exists r w',
    process_field (mkWorkflowExecutionRequest "hello") (mkLocals [] 0 0)
      summary_field two_prompts
    = (Returned (if execution_success r
                 then append_successful (mkLocals [] 0 0) r
                 else append_failed (mkLocals [] 0 0) r), w')
    /\ prompt_template r = "Summarise"
    /\ requests w' = 1.
Proof.
  destruct (only_the_first_prompt_is_used (E := external)
              (mkWorkflowExecutionRequest "hello") (mkLocals [] 0 0)
              summary_field two_prompts summary_prompt [spare_prompt]
              two_prompts ltac:(vm_compute; reflexivity)) as (r & Hrun & _ & Htemplate & _).
  exists r. eexists. split; [exact Hrun |]. split; [exact Htemplate |].
  reflexivity.
Defined.

End ConcreteMore.
